(** * The command-line entry point of ai-models

    A shallow embedding of [src/ai_models/__main__.py]: the resolution of the
    parsed options in [_main], the dispatch in [run], and the properties the
    specification states about them.

    Python values are embedded as follows: [str] is [string], [None] is the
    [None] of [option], a [dict] with string keys is a [gmap string _], and
    the effects of the program (what it prints, logs, asks of the model,
    writes to files) are a chronological list of events. *)

From Stdlib Require Import ZArith Ascii String.
From stdpp Require Import gmap strings list fin_maps sorting pretty.


(** ** Python built-ins used by the entry point *)

Module Py.

(** Truth value of an optional string: [None] and the empty string are
    false, as in [if args.requests_extra:]. *)
Definition truthy (v : option string) : bool :=
  match v with
  | None => false
  | Some s => negb (String.eqb s "")
  end.

(** Truth value of a tri-state flag ([None], [True] or [False]). *)
Definition truthy_flag (v : option bool) : bool :=
  match v with
  | Some true => true
  | _ => false
  end.

(** [s.split(sep)] for a one-character separator: every occurrence of the
    separator cuts, and the result is never empty. *)
Fixpoint split (sep : ascii) (s : string) : list string :=
  match s with
  | EmptyString => [""]
  | String c s' =>
      if Ascii.eqb c sep then "" :: split sep s'
      else match split sep s' with
           | [] => [String c ""]
           | piece :: pieces => String c piece :: pieces
           end
  end.

(** Number of occurrences of a character. *)
Fixpoint count (c : ascii) (s : string) : nat :=
  match s with
  | EmptyString => 0
  | String c' s' => (if Ascii.eqb c' c then 1 else 0) + count c s'
  end.

(** [sep.join(pieces)]. *)
Fixpoint join (sep : string) (pieces : list string) : string :=
  match pieces with
  | [] => ""
  | [piece] => piece
  | piece :: rest => piece +:+ sep +:+ join sep rest
  end.

(** [s.replace(old, new)] for a one-character [old]. *)
Fixpoint replace (old : ascii) (new : string) (s : string) : string :=
  match s with
  | EmptyString => ""
  | String c s' =>
      (if Ascii.eqb c old then new else String c "") +:+ replace old new s'
  end.

(** [s.startswith(c)] and [s.endswith(c)] for one character. *)
Definition startswith (c : ascii) (s : string) : bool :=
  match s with
  | String c' _ => Ascii.eqb c' c
  | EmptyString => false
  end.

Fixpoint endswith (c : ascii) (s : string) : bool :=
  match s with
  | EmptyString => false
  | String c' EmptyString => Ascii.eqb c' c
  | String _ s' => endswith c s'
  end.

(** [sorted(names)] on strings: ascending in the code-point order. *)
Definition sorted (names : list string) : list string :=
  merge_sort String.le names.

End Py.

(** [os.path.join(a, b)] on POSIX: an absolute second component replaces the
    first; otherwise the two are joined by one slash. *)
Definition os_path_join (a b : string) : string :=
  if Py.startswith "/" b then b
  else if String.eqb a "" || Py.endswith "/" a then a +:+ b
  else a +:+ "/" +:+ b.

(** ** [shlex.quote] and [shlex.join], as called when the remediation
    command is built *)

Module shlex.

Definition in_range (lo hi : N) (c : ascii) : bool :=
  (lo <=? N_of_ascii c)%N && (N_of_ascii c <=? hi)%N.

(** The characters that need no quoting: [\w@%+=:,./-] with ASCII [\w]. *)
Definition safe_char (c : ascii) : bool :=
  in_range 97 122 c || in_range 65 90 c || in_range 48 57 c
  || existsb (Ascii.eqb c) (list_ascii_of_string "_@%+=:,./-").

Fixpoint find_unsafe (s : string) : bool :=
  match s with
  | EmptyString => false
  | String c s' => negb (safe_char c) || find_unsafe s'
  end.

Definition squote : string := "'".
Definition dquote : string := String (ascii_of_N 34) "".

(** ['"'"']: close the single quote, a quoted single quote, reopen. *)
Definition escaped_squote : string :=
  squote +:+ dquote +:+ squote +:+ dquote +:+ squote.

(** A word [quote] leaves as it is. *)
Definition plain (s : string) : bool :=
  negb (String.eqb s "") && negb (find_unsafe s).

Definition quote (s : string) : string :=
  if String.eqb s "" then squote +:+ squote
  else if negb (find_unsafe s) then s
  else squote +:+ Py.replace "'" escaped_squote s +:+ squote.

Definition join (split_command : list string) : string :=
  Py.join " " (map quote split_command).

End shlex.

(** ** Options

    One record serves three stages of an invocation.  [D] is how an option
    with a declared non-[None] default is held: [option] for what the command
    line supplied ([None]: not supplied), [id] once the defaults are applied.
    [MD] is the type of [metadata]: the list of [KEY=VALUE] tokens (or [None])
    as parsed, a dictionary once resolved.  A flag ([store_true]) is a [bool];
    an option whose default is [None] is an [option] at every stage.  [model]
    is [None] when the namespace has no such attribute, that is when the
    positional was not declared. *)

Record Namespace (D : Type → Type) (MD : Type) : Type := {
  models : bool;
  debug : bool;
  verbose : nat;
  retrieve_requests : bool;
  archive_requests : option string;
  requests_extra : option string;
  json : bool;
  dump_provenance : option string;
  input : D string;
  file : option string;
  output : D string;
  date : D string;
  time : D Z;
  assets : D string;
  assets_sub_directory : option bool;
  assets_list : bool;
  download_assets : bool;
  path : option string;
  fields : bool;
  expver : option string;
  class_ : option string;
  metadata : MD;
  num_threads : D Z;
  lead_time : D Z;
  hindcast_reference_year : option string;
  staging_dates : option string;
  only_gpu : bool;
  deterministic : bool;
  model_version : D string;
  model : option string;
  remote_url : option string;
  remote_token : option string
}.

Arguments models {D MD} _.
Arguments debug {D MD} _.
Arguments verbose {D MD} _.
Arguments retrieve_requests {D MD} _.
Arguments archive_requests {D MD} _.
Arguments requests_extra {D MD} _.
Arguments json {D MD} _.
Arguments dump_provenance {D MD} _.
Arguments input {D MD} _.
Arguments file {D MD} _.
Arguments output {D MD} _.
Arguments date {D MD} _.
Arguments time {D MD} _.
Arguments assets {D MD} _.
Arguments assets_sub_directory {D MD} _.
Arguments assets_list {D MD} _.
Arguments download_assets {D MD} _.
Arguments path {D MD} _.
Arguments fields {D MD} _.
Arguments expver {D MD} _.
Arguments class_ {D MD} _.
Arguments metadata {D MD} _.
Arguments num_threads {D MD} _.
Arguments lead_time {D MD} _.
Arguments hindcast_reference_year {D MD} _.
Arguments staging_dates {D MD} _.
Arguments only_gpu {D MD} _.
Arguments deterministic {D MD} _.
Arguments model_version {D MD} _.
Arguments model {D MD} _.
Arguments remote_url {D MD} _.
Arguments remote_token {D MD} _.

(** What the command line supplied, before defaults. *)
Definition CommandLine : Type := Namespace option (option (list string)).

(** [args], the namespace [parse_known_args] returns. *)
Definition Args : Type := Namespace id (option (list string)).

(** [cfg], that is [vars(args)] at the call of [run]. *)
Definition Config : Type := Namespace id (gmap string string).

(** ** Exceptions, outcomes and events *)

Inductive exn : Type :=
| FileNotFoundError (msg : string)
| ValueError (msg : string)
| AttributeError (msg : string)
| KeyError (key : string)
| IndexError (msg : string)
| OtherError (class msg : string).

(** How a computation ends: it returns, [sys.exit(status)] was called, or an
    exception escaped. *)
Inductive outcome (A : Type) : Type :=
| Returned (a : A)
| Exited (status : Z)
| Raised (e : exn).

Arguments Returned {A} a.
Arguments Exited {A} status.
Arguments Raised {A} e.

(** A provenance record, as the model returns it. *)
#[local] Unset Elimination Schemes.
Inductive json_value : Type :=
| JNull
| JBool (b : bool)
| JInt (z : Z)
| JStr (s : string)
| JList (items : list json_value)
| JDict (items : list (string * json_value)).
#[local] Set Elimination Schemes.

Inductive event : Type :=
| SetEnv (key value : string)
| Print (line : string)
| ParserError (msg : string)
| LoggingBasicConfig (level : string)
| LoadModel (name : string) (cfg : Config) (model_args : list string)
| Model_print_fields
| Model_print_requests
| Model_print_assets_list
| Model_remote (cfg : Config) (model_args : list string)
| Model_run
| Model_finalise
| Model_provenance
| LogException (e : exn)
| LogError (msg : string)
| TimerEnter (label : string)
| TimerExit (label : string)
| OpenWrite (path : string)
| FileWrite (path text : string)
| FileClose (path : string).

(** ** The collaborators

    The model, its loader, the argument parser of the standard library and
    the file system are outside this file; each is represented by what it
    answers when called. *)

Module Model.

(** For each operation, the exception it raises, if any. *)
Record t : Type := {
  print_fields : option exn;
  print_requests : option exn;
  print_assets_list : option exn;
  run : option exn;
  remote : Config → list string → option exn;
  finalise : option exn;
  provenance : exn + json_value
}.

End Model.

(** What [parse_known_args] does with a command line: it reports a usage
    error, prints the help and exits, or returns the recognised options and
    the tokens it does not know. *)
Inductive parsed : Type :=
| UsageError (msg : string)
| Help (text : string)
| Parsed (supplied : CommandLine) (unknownargs : list string).

Record World : Type := {
  environ : gmap string string;
  sys_argv : list string;
  available_models : list string;
  (** [parse_known_args declares_model argv] for the parser of [_main],
      where [declares_model] says whether the MODEL positional was added *)
  parse_known_args : bool → list string → parsed;
  load_model : string → Config → list string → exn + Model.t;
  (** [open(path, "w")]: the exception it raises, if any *)
  open_write : string → option exn;
  (** [json.dump(prov, f, indent=4)]: the text that reaches the file, and
      the exception raised by the serialisation, if any *)
  json_dump : json_value → string * option exn
}.

(** ** Effects: a chronological trace of events and an outcome *)

Definition M (A : Type) : Type := list event * outcome A.

Definition ret {A} (a : A) : M A := ([], Returned a).

(** Sequencing: what follows runs only when the first part returns. *)
Definition bind {A B} (k : A → M B) (m : M A) : M B :=
  match m with
  | (t, Returned a) => let '(t', r) := k a in (t ++ t', r)
  | (t, Exited status) => (t, Exited status)
  | (t, Raised e) => (t, Raised e)
  end.

#[global] Instance M_ret : MRet M := @ret.
#[global] Instance M_bind : MBind M := @bind.

Definition emit (e : event) : M unit := ([e], Returned tt).
Definition sys_exit {A} (status : Z) : M A := ([], Exited status).
Definition raise {A} (e : exn) : M A := ([], Raised e).
Definition when (b : bool) (m : M unit) : M unit := if b then m else ret tt.

(** A call of a collaborator: the event, then its answer. *)
Definition call (e : event) (answer : option exn) : M unit :=
  emit e ;; match answer with None => ret tt | Some err => raise err end.

(** [parser.error(msg)]: the message and the usage go to the error stream and
    the process exits with the argument parser's status. *)
Definition usage_status : Z := 2.
Definition parser_error {A} (msg : string) : M A :=
  ([ParserError msg], Exited usage_status).

(** [try: body / except FileNotFoundError as e: handler e]. *)
Definition try_except_FileNotFoundError (body : M unit) (handler : exn → M unit)
  : M unit :=
  match body with
  | (t, Raised (FileNotFoundError msg)) =>
      let '(t', r) := handler (FileNotFoundError msg) in (t ++ t', r)
  | other => other
  end.

(** [try: body / finally: emit e]. *)
Definition finally {A} (body : M A) (e : event) : M A :=
  let '(t, r) := body in (t ++ [e], r).

(** Modelled from the spec: [Timer], imported from [.model], whose code is
    not part of this file.  It reports the elapsed time when the block ends,
    also when the block fails, and lets the failure through. *)
Definition with_Timer {A} (label : string) (body : M A) : M A :=
  emit (TimerEnter label) ;; finally body (TimerExit label).

(** The content of the files after a trace: opening for writing creates or
    truncates, writing appends. *)
Definition file_effect (files : gmap string string) (e : event)
  : gmap string string :=
  match e with
  | OpenWrite p => <[p := ""]> files
  | FileWrite p text => alter (λ old, old +:+ text) p files
  | _ => files
  end.

Definition files_after (t : list event) (files : gmap string string)
  : gmap string string :=
  foldl file_effect files t.

(** ** The program *)

(** [dict(items)] for an iterable of lists of strings: every item must have
    exactly two elements, a later key overwrites an earlier one. *)
Fixpoint dict_update (i : nat) (items : list (list string))
  (d : gmap string string) : exn + gmap string string :=
  match items with
  | [] => inr d
  | [k; v] :: rest => dict_update (S i) rest (<[k := v]> d)
  | item :: _ =>
      inl (ValueError ("dictionary update sequence element #" +:+ pretty i
                       +:+ " has length " +:+ pretty (length item)
                       +:+ "; 2 is required"))
  end.

Definition dict (items : list (list string)) : exn + gmap string string :=
  dict_update 0 items ∅.

Definition lift {A} (r : exn + A) : M A :=
  match r with
  | inl e => raise e
  | inr a => ret a
  end.

(** [args.model]: an [AttributeError] when the positional was not declared. *)
Definition getattr_model {D MD} (args : Namespace D MD) : M string :=
  match model args with
  | Some name => ret name
  | None => raise (AttributeError "'Namespace' object has no attribute 'model'")
  end.

(** [cfg["model"]]: a [KeyError] when the key is absent. *)
Definition getitem_model {D MD} (cfg : Namespace D MD) : M string :=
  match model cfg with
  | Some name => ret name
  | None => raise (KeyError "model")
  end.

Section Program.

Variable w : World.

(** The environment once [_main] has set [PYTORCH_ENABLE_MPS_FALLBACK]. *)
Definition environ' : gmap string string :=
  <["PYTORCH_ENABLE_MPS_FALLBACK" := "1"]> (environ w).

(** The defaults of the [add_argument] declarations (lines 27 to 233),
    applied to what the command line supplied. *)
Definition namespace_of (c : CommandLine) : Args := {|
  models := models c;
  debug := debug c;
  verbose := verbose c;
  retrieve_requests := retrieve_requests c;
  archive_requests := archive_requests c;
  requests_extra := requests_extra c;
  json := json c;
  dump_provenance := dump_provenance c;
  input := default "mars" (input c);
  file := file c;
  output := default "file" (output c);
  date := default "-1" (date c);
  time := default 12%Z (time c);
  assets := default (default "." (environ' !! "AI_MODELS_ASSETS")) (assets c);
  assets_sub_directory := assets_sub_directory c;
  assets_list := assets_list c;
  download_assets := download_assets c;
  path := path c;
  fields := fields c;
  expver := expver c;
  class_ := class_ c;
  metadata := metadata c;
  num_threads := default 1%Z (num_threads c);
  lead_time := default 240%Z (lead_time c);
  hindcast_reference_year := hindcast_reference_year c;
  staging_dates := staging_dates c;
  only_gpu := only_gpu c;
  deterministic := deterministic c;
  model_version := default "latest" (model_version c);
  model := model c;
  remote_url :=
    match remote_url c with
    | Some url => Some url
    | None => environ' !! "AI_MODELS_REMOTE_URL"
    end;
  remote_token :=
    match remote_token c with
    | Some token => Some token
    | None => environ' !! "AI_MODELS_REMOTE_TOKEN"
    end
|}.

(** [vars(args)] after the assignments of lines 242 to 266. *)
Definition vars (args : Args) (assets' path' input' : string)
  (metadata' : gmap string string) : Config := {|
  models := models args;
  debug := debug args;
  verbose := verbose args;
  retrieve_requests := retrieve_requests args;
  archive_requests := archive_requests args;
  requests_extra := requests_extra args;
  json := json args;
  dump_provenance := dump_provenance args;
  input := input';
  file := file args;
  output := output args;
  date := date args;
  time := time args;
  assets := assets';
  assets_sub_directory := assets_sub_directory args;
  assets_list := assets_list args;
  download_assets := download_assets args;
  path := Some path';
  fields := fields args;
  expver := expver args;
  class_ := class_ args;
  metadata := metadata';
  num_threads := num_threads args;
  lead_time := lead_time args;
  hindcast_reference_year := hindcast_reference_year args;
  staging_dates := staging_dates args;
  only_gpu := only_gpu args;
  deterministic := deterministic args;
  model_version := model_version args;
  model := model args;
  remote_url := remote_url args;
  remote_token := remote_token args
|}.

(** The command of line 313: the program name, the flag, the arguments. *)
Definition remediation_command : M string :=
  match sys_argv w with
  | [] => raise (IndexError "list index out of range")
  | prog :: arguments =>
      ret (shlex.join ([prog; "--download-assets"] ++ arguments))
  end.

(** The handler of lines 304 to 315. *)
Definition missing_files (cfg : Config) (e : exn) : M unit :=
  emit (LogException e) ;;
  name ← getitem_model cfg ;
  emit (LogError ("It is possible that some files requited by " +:+ name
                  +:+ " are missing.")) ;;
  emit (LogError "Rerun the command as:") ;;
  command ← remediation_command ;
  emit (LogError ("   " +:+ command)) ;;
  sys_exit 1.

(** Lines 319 to 325: the file is opened before the model is asked for its
    provenance, and closed whatever happens next. *)
Definition dump_provenance_to (m : Model.t) (file_name : string) : M unit :=
  with_Timer "Collect provenance information" (
    match open_write w file_name with
    | Some failure => raise failure
    | None =>
        emit (OpenWrite file_name) ;;
        finally (
          emit Model_provenance ;;
          prov ← lift (Model.provenance m) ;
          let '(text, failure) := json_dump w prov in
          call (FileWrite file_name text) failure
        ) (FileClose file_name)
    end).

(** Lines 300 to 303: the run itself, remote when a URL is configured. *)
Definition run_or_remote (cfg : Config) (m : Model.t)
  (model_args : list string) : M unit :=
  match remote_url cfg with
  | Some _ => call (Model_remote cfg model_args) (Model.remote m cfg model_args)
  | None => call Model_run (Model.run m)
  end.

Definition run (cfg : Config) (model_args : list string) : M unit :=
  name ← getitem_model cfg ;
  emit (LoadModel name cfg model_args) ;;
  m ← lift (load_model w name cfg model_args) ;
  when (fields cfg) (
    call Model_print_fields (Model.print_fields m) ;;
    sys_exit 0) ;;
  when (retrieve_requests cfg
        || (Py.truthy (requests_extra cfg)
            && negb (Py.truthy (archive_requests cfg)))) (
    call Model_print_requests (Model.print_requests m) ;;
    sys_exit 0) ;;
  when (assets_list cfg) (
    call Model_print_assets_list (Model.print_assets_list m) ;;
    sys_exit 0) ;;
  try_except_FileNotFoundError
    (run_or_remote cfg m model_args)
    (missing_files cfg) ;;
  call Model_finalise (Model.finalise m) ;;
  when (Py.truthy (dump_provenance cfg)) (
    dump_provenance_to m (default "" (dump_provenance cfg))).

(** Lines 237 to 240: [--models] lists the models and exits. *)
Definition _main_models (args : Args) : M unit :=
  when (models args) (
    mapM (λ p, emit (Print p)) (Py.sorted (available_models w)) ;;
    sys_exit 0).

(** Lines 242 to 246: the assets directory and the output path. *)
Definition _main_paths (args : Args) : M (string * string) :=
  assets' ←
    (if Py.truthy_flag (assets_sub_directory args)
     then name ← getattr_model args ; ret (os_path_join (assets args) name)
     else ret (assets args)) ;
  path' ←
    (match path args with
     | None => name ← getattr_model args ; ret (name +:+ ".grib")
     | Some p => ret p
     end) ;
  ret (assets', path').

(** Lines 248 and 249: a file given by [--file] forces the input kind. *)
Definition _main_input (args : Args) : string :=
  match file args with
  | Some _ => "file"
  | None => input args
  end.

(** Lines 251 to 255: logging is configured unless the fields or the
    retrieve requests are asked for. *)
Definition _main_logging (args : Args) : M unit :=
  when (negb (fields args) && negb (retrieve_requests args)) (
    emit (LoggingBasicConfig (if debug args then "DEBUG" else "INFO"))).

(** Lines 262 to 266: [--expver] and [--class] are written over the
    dictionary. *)
Definition _main_dedicated (args : Args) (d : gmap string string)
  : gmap string string :=
  let d :=
    match expver args with
    | Some v => <["expver" := v]> d
    | None => d
    end in
  match class_ args with
  | Some v => <["class" := v]> d
  | None => d
  end.

(** Lines 257 to 266: the metadata dictionary. *)
Definition _main_metadata (args : Args) : M (gmap string string) :=
  let tokens := default [] (metadata args) in
  d ← lift (dict (map (Py.split "=") tokens)) ;
  ret (_main_dedicated args d).

(** Lines 268 to 276: the two checks across options. *)
Definition _main_checks (args : Args) : M unit :=
  when (Py.truthy (requests_extra args)) (
    when (negb (retrieve_requests args)
          && negb (Py.truthy (archive_requests args))) (
      parser_error
        "You need to specify --retrieve-requests or --archive-requests")) ;;
  match remote_url args with
  | Some _ =>
      match remote_token args with
      | None => parser_error "You need to specify --remote-token"
      | Some _ => ret tt
      end
  | None => ret tt
  end.

(** Lines 237 to 278 of [_main]: from the parsed namespace to [run]. *)
Definition _main_resolve (args : Args) (unknownargs : list string) : M unit :=
  _main_models args ;;
  '(assets', path') ← _main_paths args ;
  let input' := _main_input args in
  _main_logging args ;;
  d ← _main_metadata args ;
  _main_checks args ;;
  run (vars args assets' path' input' d) unknownargs.

(** Line 215: the MODEL positional is declared unless the token [--models]
    occurs on the command line; the rest of the parser does not depend on
    the command line. *)
Definition declares_model (argv : list string) : bool :=
  negb (bool_decide ("--models" ∈ argv)).

(** [_main].  The parse of line 128 is on a fixed command line and its result
    is dropped; it leaves no trace. *)
Definition _main (argv : list string) : M unit :=
  emit (SetEnv "PYTORCH_ENABLE_MPS_FALLBACK" "1") ;;
  match parse_known_args w (declares_model argv) argv with
  | UsageError msg => parser_error msg
  | Help text => emit (Print text) ;; sys_exit 0
  | Parsed supplied unknownargs =>
      _main_resolve (namespace_of supplied) unknownargs
  end.

Definition main : M unit :=
  with_Timer "Total time" (_main (tail (sys_argv w))).

End Program.

(** ** The execution modes of the dispatcher *)

Inductive ExecutionMode : Type :=
| ShowFields
| PrintRequests
| ListAssets
| RemoteRun
| LocalRun.

(** The mode an operation of the model belongs to. *)
Definition mode_of_event (e : event) : option ExecutionMode :=
  match e with
  | Model_print_fields => Some ShowFields
  | Model_print_requests => Some PrintRequests
  | Model_print_assets_list => Some ListAssets
  | Model_remote _ _ => Some RemoteRun
  | Model_run => Some LocalRun
  | _ => None
  end.

Definition modes_executed (t : list event) : list ExecutionMode :=
  omap mode_of_event t.

(** The condition under which a mode is asked for, as [run] tests it; the
    local run is what remains. *)
Definition requested (cfg : Config) (mode : ExecutionMode) : bool :=
  match mode with
  | ShowFields => fields cfg
  | PrintRequests =>
      retrieve_requests cfg
      || (Py.truthy (requests_extra cfg)
          && negb (Py.truthy (archive_requests cfg)))
  | ListAssets => assets_list cfg
  | RemoteRun => bool_decide (is_Some (remote_url cfg))
  | LocalRun => true
  end.

(** The priority order of the specification. *)
Definition priority : list ExecutionMode :=
  [ShowFields; PrintRequests; ListAssets; RemoteRun; LocalRun].

(** The mode of an invocation: the first one in the priority order that is
    asked for. *)
Definition select_mode (cfg : Config) : ExecutionMode :=
  default LocalRun (List.find (requested cfg) priority).

Definition informational (mode : ExecutionMode) : bool :=
  match mode with
  | ShowFields | PrintRequests | ListAssets => true
  | RemoteRun | LocalRun => false
  end.

(** What the model answers to the operation of a mode. *)
Definition answer (m : Model.t) (cfg : Config) (model_args : list string)
  (mode : ExecutionMode) : option exn :=
  match mode with
  | ShowFields => Model.print_fields m
  | PrintRequests => Model.print_requests m
  | ListAssets => Model.print_assets_list m
  | RemoteRun => Model.remote m cfg model_args
  | LocalRun => Model.run m
  end.

(** The operation of the model that carries out a mode. *)
Definition event_of_mode (cfg : Config) (model_args : list string)
  (mode : ExecutionMode) : event :=
  match mode with
  | ShowFields => Model_print_fields
  | PrintRequests => Model_print_requests
  | ListAssets => Model_print_assets_list
  | RemoteRun => Model_remote cfg model_args
  | LocalRun => Model_run
  end.

Definition is_model_event (e : event) : bool :=
  match e with
  | LoadModel _ _ _ | Model_print_fields | Model_print_requests
  | Model_print_assets_list | Model_remote _ _ | Model_run | Model_finalise
  | Model_provenance => true
  | _ => false
  end.

(** What can follow the operation of a mode: the report of missing files,
    the finalisation, the provenance dump. *)
Definition is_aftermath (e : event) : bool :=
  match e with
  | LogException _ | LogError _ | Model_finalise | Model_provenance
  | TimerEnter _ | TimerExit _ | OpenWrite _ | FileWrite _ _ | FileClose _ =>
      true
  | _ => false
  end.

Definition is_logging_config (e : event) : bool :=
  match e with
  | LoggingBasicConfig _ => true
  | _ => false
  end.

(** ** The conditions under which resolution reaches [run] *)

(** A token that [split] cuts in exactly two. *)
Definition one_equals (kv : string) : bool :=
  Nat.eqb (Py.count "=" kv) 1.

Definition requests_extra_ok {D MD} (args : Namespace D MD) : bool :=
  negb (Py.truthy (requests_extra args))
  || retrieve_requests args || Py.truthy (archive_requests args).

Definition remote_ok {D MD} (args : Namespace D MD) : bool :=
  match remote_url args, remote_token args with
  | Some _, None => false
  | _, _ => true
  end.

(** Resolution reaches [run] with a model name: no [--models], the positional
    present, well-formed metadata tokens, both checks passed. *)
Definition resolves (args : Args) : bool :=
  negb (models args)
  && bool_decide (is_Some (model args))
  && forallb one_equals (default [] (metadata args))
  && requests_extra_ok args
  && remote_ok args.

(** A usage error: the message of [parser.error] ends the trace and the
    process exits with the parser's status. *)
Definition is_usage_error {A} (m : M A) : Prop :=
  ∃ t msg, m = (t ++ [ParserError msg], Exited usage_status).

(** The events of resolution itself, when it goes through. *)
Definition logging_events (args : Args) : list event :=
  if negb (fields args) && negb (retrieve_requests args)
  then [LoggingBasicConfig (if debug args then "DEBUG" else "INFO")]
  else [].

(** The configuration [run] receives when resolution goes through, for the
    model [name] and the dictionary [d] built from the metadata tokens. *)
Definition resolved_config (args : Args) (name : string)
  (d : gmap string string) : Config :=
  vars args
    (if Py.truthy_flag (assets_sub_directory args)
     then os_path_join (assets args) name else assets args)
    (default (name +:+ ".grib") (path args))
    (_main_input args)
    (_main_dedicated args d).

(** ** The metadata map as the specification words it

    Each token is cut at its first ["="]; a token without one is refused. *)

Fixpoint cut_at_first (sep : ascii) (s : string) : option (string * string) :=
  match s with
  | EmptyString => None
  | String c s' =>
      if Ascii.eqb c sep then Some ("", s')
      else match cut_at_first sep s' with
           | Some (k, v) => Some (String c k, v)
           | None => None
           end
  end.

Fixpoint metadata_by_first_equals (tokens : list string)
  (d : gmap string string) : option (gmap string string) :=
  match tokens with
  | [] => Some d
  | kv :: rest =>
      match cut_at_first "=" kv with
      | Some (k, v) => metadata_by_first_equals rest (<[k := v]> d)
      | None => None
      end
  end.

(** The metadata stage as the specification words it: the map cut at the
    first ["="] of each token, with the dedicated options over it, or a
    usage error when a token has no ["="]. *)
Definition metadata_as_specified (args : Args) : Prop :=
  match metadata_by_first_equals (default [] (metadata args)) ∅ with
  | Some d => _main_metadata args = ret (_main_dedicated args d)
  | None => is_usage_error (_main_metadata args)
  end.


(** ** Sample invocations *)

(** A command line that supplies the named flags and options and nothing
    else. *)
Definition command_line (flags : list string) (options : list (string * string))
  (metadata_tokens : option (list string)) (model_name : option string)
  : CommandLine :=
  let flag name := bool_decide (name ∈ flags) in
  let opt name := (list_to_map options : gmap string string) !! name in {|
  models := flag "models";
  debug := flag "debug";
  verbose := 0;
  retrieve_requests := flag "retrieve_requests";
  archive_requests := opt "archive_requests";
  requests_extra := opt "requests_extra";
  json := flag "json";
  dump_provenance := opt "dump_provenance";
  input := opt "input";
  file := opt "file";
  output := opt "output";
  date := opt "date";
  time := None;
  assets := opt "assets";
  assets_sub_directory := None;
  assets_list := flag "assets_list";
  download_assets := flag "download_assets";
  path := opt "path";
  fields := flag "fields";
  expver := opt "expver";
  class_ := opt "class_";
  metadata := metadata_tokens;
  num_threads := None;
  lead_time := None;
  hindcast_reference_year := opt "hindcast_reference_year";
  staging_dates := opt "staging_dates";
  only_gpu := flag "only_gpu";
  deterministic := flag "deterministic";
  model_version := opt "model_version";
  model := model_name;
  remote_url := opt "remote_url";
  remote_token := opt "remote_token"
|}.

(** A model whose operations return, but for [run] and [provenance]. *)
Definition model_answering (run_answer : option exn)
  (provenance_answer : exn + json_value) : Model.t := {|
  Model.print_fields := None;
  Model.print_requests := None;
  Model.print_assets_list := None;
  Model.run := run_answer;
  Model.remote := λ _ _, run_answer;
  Model.finalise := None;
  Model.provenance := provenance_answer
|}.

Definition quiet_model : Model.t := model_answering None (inr (JDict [])).

(** A process started as [prog argv] in the environment [env], where the
    parser recognises [supplied] in [argv], the loader answers with [m], and
    the file system accepts every write. *)
Definition world_of (env : list (string * string)) (prog : string)
  (argv : list string) (supplied : CommandLine) (m : Model.t)
  (written : string * option exn) : World := {|
  environ := list_to_map env;
  sys_argv := prog :: argv;
  available_models := ["panguweather"; "fourcastnet"; "graphcast"; "X"];
  parse_known_args := λ _ argv',
    if bool_decide (argv' = argv) then Parsed supplied []
    else UsageError "unrecognized arguments";
  load_model := λ _ _ _, inr m;
  open_write := λ _, None;
  json_dump := λ _, written
|}.

(** [ai-models --fields --retrieve-requests X] *)
Definition fields_and_requests : CommandLine :=
  command_line ["fields"; "retrieve_requests"] [] None (Some "X").

(** [prog --only-gpu X] *)
Definition only_gpu_X : CommandLine :=
  command_line ["only_gpu"] [] None (Some "X").

(** [ai-models --dump-provenance p.json X] *)
Definition dump_to_p_json : CommandLine :=
  command_line [] [("dump_provenance", "p.json")] None (Some "X").

(** [ai-models --metadata TOKEN X] *)
Definition metadata_token (token : string) : CommandLine :=
  command_line [] [] (Some [token]) (Some "X").

(** [ai-models --metadata expver=0001 --metadata class=od --metadata
    stream=oper --expver abcd --class rd X] *)
Definition metadata_and_dedicated : CommandLine :=
  command_line [] [("expver", "abcd"); ("class_", "rd")]
    (Some ["expver=0001"; "class=od"; "stream=oper"]) (Some "X").



(** [ai-models --requests-extra a=b --retrieve-requests X] *)
Definition requests_extra_retrieve : CommandLine :=
  command_line ["retrieve_requests"] [("requests_extra", "a=b")]
    None (Some "X").

(** [ai-models --file INPUT.dat --input mars X] *)
Definition file_and_input_mars : CommandLine :=
  command_line [] [("file", "INPUT.dat"); ("input", "mars")] None (Some "X").

(** [ai-models --models] *)
Definition models_only : CommandLine :=
  command_line ["models"] [] None None.

(** [ai-models X], for use with [AI_MODELS_REMOTE_URL] in the environment. *)
Definition model_X : CommandLine :=
  command_line [] [] None (Some "X").

(** ** Vocabulary for the further properties *)

(** The exception class that the handler of [run] catches. *)
Definition is_FileNotFoundError (e : exn) : bool :=
  match e with
  | FileNotFoundError _ => true
  | _ => false
  end.

(** The path an event of the file system is about. *)
Definition file_of_event (e : event) : option string :=
  match e with
  | OpenWrite p | FileWrite p _ | FileClose p => Some p
  | _ => None
  end.

Definition is_log_event (e : event) : bool :=
  match e with
  | LogException _ | LogError _ => true
  | _ => false
  end.

(** The key of a well-formed metadata token. *)
Definition key_of (kv : string) : option string :=
  fst <$> cut_at_first "=" kv.

(** A reader of command lines, for stating that [shlex.join] loses nothing:
    words end at a space outside quotes; a single or a double quote opens a
    stretch that runs to the next quote of its kind and is taken as it is. *)
Inductive quoting : Type :=
| Unquoted
| Single
| Double.

Definition extend (current : option string) (c : ascii) : option string :=
  Some (default "" current +:+ String c "").

Definition finished (current : option string) : list string :=
  match current with
  | Some word => [word]
  | None => []
  end.

Fixpoint read_words (state : quoting) (current : option string) (s : string)
  : list string :=
  match s with
  | EmptyString => finished current
  | String c s' =>
      match state with
      | Unquoted =>
          if Ascii.eqb c " " then finished current ++ read_words Unquoted None s'
          else if Ascii.eqb c "'"
          then read_words Single (Some (default "" current)) s'
          else if Ascii.eqb c (ascii_of_N 34)
          then read_words Double (Some (default "" current)) s'
          else read_words Unquoted (extend current c) s'
      | Single =>
          if Ascii.eqb c "'" then read_words Unquoted current s'
          else read_words Single (extend current c) s'
      | Double =>
          if Ascii.eqb c (ascii_of_N 34) then read_words Unquoted current s'
          else read_words Double (extend current c) s'
      end
  end.

(** ** Further sample invocations *)

(** The same process on a file system that refuses to open files. *)
Definition refusing_open (failure : exn) (w : World) : World := {|
  environ := environ w;
  sys_argv := sys_argv w;
  available_models := available_models w;
  parse_known_args := parse_known_args w;
  load_model := load_model w;
  open_write := λ _, Some failure;
  json_dump := json_dump w
|}.

(** The same command line with [--assets-sub-directory]. *)
Definition with_assets_sub_directory (c : CommandLine) : CommandLine := {|
  models := models c;
  debug := debug c;
  verbose := verbose c;
  retrieve_requests := retrieve_requests c;
  archive_requests := archive_requests c;
  requests_extra := requests_extra c;
  json := json c;
  dump_provenance := dump_provenance c;
  input := input c;
  file := file c;
  output := output c;
  date := date c;
  time := time c;
  assets := assets c;
  assets_sub_directory := Some true;
  assets_list := assets_list c;
  download_assets := download_assets c;
  path := path c;
  fields := fields c;
  expver := expver c;
  class_ := class_ c;
  metadata := metadata c;
  num_threads := num_threads c;
  lead_time := lead_time c;
  hindcast_reference_year := hindcast_reference_year c;
  staging_dates := staging_dates c;
  only_gpu := only_gpu c;
  deterministic := deterministic c;
  model_version := model_version c;
  model := model c;
  remote_url := remote_url c;
  remote_token := remote_token c
|}.

(** [ai-models --metadata a=1 --metadata b=2 --metadata a=3 X] *)
Definition metadata_twice : CommandLine :=
  command_line [] [] (Some ["a=1"; "b=2"; "a=3"]) (Some "X").

(** [ai-models --path out.grib -- --models]: the token [--models] keeps the
    positional out of the parser, and what follows [--] is no flag. *)
Definition path_without_model : CommandLine :=
  command_line [] [("path", "out.grib")] None None.

(** * Properties *)

(** ** Traces of sequenced computations *)

Lemma bind_Returned {A B} (k : A → M B) (t : list event) (a : A) :
  (t, Returned a) ≫= k = (t ++ (k a).1, (k a).2).
Proof. unfold mbind, M_bind, bind. by destruct (k a). Qed.

Lemma bind_Exited {A B} (k : A → M B) (t : list event) (status : Z) :
  (t, Exited status : outcome A) ≫= k = (t, Exited status).
Proof. reflexivity. Qed.

Lemma bind_Raised {A B} (k : A → M B) (t : list event) (e : exn) :
  (t, Raised e : outcome A) ≫= k = (t, Raised e).
Proof. reflexivity. Qed.

Lemma bind_ret_l {A B} (k : A → M B) (a : A) : ret a ≫= k = k a.
Proof. unfold ret. rewrite bind_Returned. by destruct (k a). Qed.

Lemma when_true (m : M unit) : when true m = m.
Proof. reflexivity. Qed.

Lemma when_false (m : M unit) : when false m = ret tt.
Proof. reflexivity. Qed.

(** An event of [m ≫= k] is one of [m] or one of the continuation. *)
Lemma elem_of_bind {A B} (m : M A) (k : A → M B) (e : event) :
  e ∈ (m ≫= k).1 ↔ e ∈ m.1 ∨ ∃ a, m.2 = Returned a ∧ e ∈ (k a).1.
Proof.
  destruct m as [t [a | status | err]].
  - rewrite bind_Returned. simpl. rewrite elem_of_app. split.
    + intros [? | ?]; [by left | right; eauto].
    + intros [? | (a' & [= <-] & ?)]; [by left | by right].
  - rewrite bind_Exited. simpl. split; [by left |].
    intros [? | (? & [=] & ?)]; done.
  - rewrite bind_Raised. simpl. split; [by left |].
    intros [? | (? & [=] & ?)]; done.
Qed.

Lemma mapM_emit_Print (names : list string) :
  mapM (λ p, emit (Print p)) names
  = (Print <$> names, Returned ((λ _, tt) <$> names)).
Proof.
  induction names as [| name names IH]; [done |].
  simpl. rewrite IH, bind_Returned.
  unfold mret, M_ret, ret. simpl. by rewrite app_nil_r.
Qed.

Lemma sorted_Permutation (names : list string) : Py.sorted names ≡ₚ names.
Proof. apply merge_sort_Permutation. Qed.

Lemma sorted_Sorted (names : list string) : Sorted String.le (Py.sorted names).
Proof. apply Sorted_merge_sort. apply _. Qed.

(** ** [str.split] and [dict] on the metadata tokens *)

Lemma length_split (sep : ascii) (s : string) :
  length (Py.split sep s) = S (Py.count sep s).
Proof.
  induction s as [| c s IH]; [done |]. simpl.
  destruct (Ascii.eqb c sep); simpl; [by rewrite IH |].
  destruct (Py.split sep s); simpl in *; [done | lia].
Qed.

Lemma split_none (sep : ascii) (s : string) :
  Py.count sep s = 0 → Py.split sep s = [s].
Proof.
  induction s as [| c s IH]; [done |]. simpl.
  destruct (Ascii.eqb c sep); [done |]. intros Hs. by rewrite IH.
Qed.

(** On a token with exactly one separator, cutting at every separator and
    cutting at the first one agree. *)
Lemma split_one (sep : ascii) (s : string) :
  Py.count sep s = 1 →
  ∃ k v, Py.split sep s = [k; v] ∧ cut_at_first sep s = Some (k, v).
Proof.
  induction s as [| c s IH]; [done |]. simpl.
  destruct (Ascii.eqb c sep); simpl.
  - intros [= Hs]. rewrite (split_none _ _ Hs). by exists "", s.
  - intros Hs. destruct (IH Hs) as (k & v & -> & ->). by exists (String c k), v.
Qed.

Lemma dict_update_one_equals (tokens : list string) (i : nat)
  (d : gmap string string) :
  forallb one_equals tokens = true →
  ∃ d', dict_update i (map (Py.split "=") tokens) d = inr d'
        ∧ metadata_by_first_equals tokens d = Some d'.
Proof.
  revert i d. induction tokens as [| kv tokens IH]; intros i d; simpl.
  - eauto.
  - intros [Hkv Htokens]%andb_prop. apply Nat.eqb_eq in Hkv.
    destruct (split_one _ _ Hkv) as (k & v & -> & ->). apply IH, Htokens.
Qed.

Lemma dict_update_not_one_equals (tokens : list string) (i : nat)
  (d : gmap string string) :
  forallb one_equals tokens = false →
  ∃ msg, dict_update i (map (Py.split "=") tokens) d = inl (ValueError msg).
Proof.
  revert i d. induction tokens as [| kv tokens IH]; intros i d; simpl; [done |].
  intros Hkv. pose proof (length_split "=" kv) as Hlen.
  destruct (one_equals kv) eqn:Hone; simpl in Hkv.
  - apply Nat.eqb_eq in Hone. destruct (split_one _ _ Hone) as (k & v & -> & _).
    by apply IH.
  - apply Nat.eqb_neq in Hone.
    destruct (Py.split "=" kv) as [| ? [| ? [| ? ?]]]; simpl in Hlen;
      eauto; lia.
Qed.

(** ** Resolution, stage by stage *)

Section Resolution.

Context (w : World).

Lemma _main_models_true (args : Args) :
  models args = true →
  _main_models w args = (Print <$> Py.sorted (available_models w), Exited 0).
Proof.
  intros Hmodels. unfold _main_models. rewrite Hmodels, when_true.
  rewrite mapM_emit_Print, bind_Returned. simpl. by rewrite app_nil_r.
Qed.

Lemma _main_models_false (args : Args) :
  models args = false → _main_models w args = ret tt.
Proof. intros Hmodels. unfold _main_models. by rewrite Hmodels. Qed.

(** With the positional present, the paths are computed without failure. *)
Lemma _main_paths_model (args : Args) (name : string) :
  model args = Some name →
  _main_paths args
  = ([], Returned
           (if Py.truthy_flag (assets_sub_directory args)
            then os_path_join (assets args) name else assets args,
            default (name +:+ ".grib") (path args))).
Proof.
  intros Hmodel. unfold _main_paths, getattr_model. rewrite Hmodel.
  by destruct (Py.truthy_flag (assets_sub_directory args)), (path args).
Qed.

(** In any case the paths leave no trace, and fail only for want of the
    positional. *)
Lemma _main_paths_cases (args : Args) :
  (∃ paths, _main_paths args = ([], Returned paths))
  ∨ (model args = None
     ∧ ∃ msg, _main_paths args = ([], Raised (AttributeError msg))).
Proof.
  unfold _main_paths, getattr_model.
  destruct (Py.truthy_flag (assets_sub_directory args)),
    (model args) as [name |], (path args) as [p |]; eauto.
Qed.

Lemma _main_logging_events (args : Args) :
  _main_logging args = (logging_events args, Returned tt).
Proof.
  unfold _main_logging, logging_events.
  by destruct (negb (fields args) && negb (retrieve_requests args)).
Qed.

Lemma _main_metadata_dict (args : Args) :
  _main_metadata args
  = match dict (map (Py.split "=") (default [] (metadata args))) with
    | inl e => ([], Raised e)
    | inr d => ([], Returned (_main_dedicated args d))
    end.
Proof.
  unfold _main_metadata. cbv zeta.
  by destruct (dict (map (Py.split "=") (default [] (metadata args)))).
Qed.

Lemma _main_checks_ok (args : Args) :
  _main_checks args
  = if requests_extra_ok args
    then if remote_ok args then ([], Returned tt)
         else parser_error "You need to specify --remote-token"
    else parser_error
           "You need to specify --retrieve-requests or --archive-requests".
Proof.
  unfold _main_checks, requests_extra_ok, remote_ok.
  by destruct (Py.truthy (requests_extra args)), (retrieve_requests args),
    (Py.truthy (archive_requests args)), (remote_url args),
    (remote_token args).
Qed.

(** Resolution goes through to [run]. *)
Lemma _main_resolve_run (args : Args) (u : list string) (name : string)
  (d : gmap string string) :
  models args = false →
  model args = Some name →
  dict (map (Py.split "=") (default [] (metadata args))) = inr d →
  requests_extra_ok args = true →
  remote_ok args = true →
  _main_resolve w args u
  = (logging_events args, Returned tt) ≫= λ _,
    run w (resolved_config args name d) u.
Proof.
  intros Hmodels Hmodel Hdict Hextra Hremote. unfold _main_resolve.
  rewrite (_main_models_false _ Hmodels), (_main_paths_model _ _ Hmodel).
  rewrite _main_logging_events, _main_metadata_dict, _main_checks_ok.
  rewrite Hdict, Hextra, Hremote. rewrite bind_ret_l, !bind_Returned. simpl.
  by destruct (run _ _ _).
Qed.

End Resolution.

(** ** Dispatch *)

Lemma Forall_bind {A B} (P : event → Prop) (m : M A) (k : A → M B) :
  Forall P m.1 →
  (∀ a, m.2 = Returned a → Forall P (k a).1) →
  Forall P (m ≫= k).1.
Proof.
  rewrite !Forall_forall. intros Hm Hk e [? | (a & Ha & ?)]%elem_of_bind.
  - by apply Hm.
  - specialize (Hk a Ha). rewrite Forall_forall in Hk. by apply Hk.
Qed.

Lemma Forall_finally {A} (P : event → Prop) (m : M A) (e : event) :
  Forall P m.1 → P e → Forall P (finally m e).1.
Proof.
  destruct m as [t r]. simpl. intros Ht He. apply Forall_app. by split; [| constructor].
Qed.

Lemma Forall_call (P : event → Prop) (e : event) (a : option exn) :
  P e → Forall P (call e a).1.
Proof. intros He. destruct a; repeat constructor; done. Qed.

Lemma modes_executed_cons (e : event) (t : list event) :
  modes_executed (e :: t)
  = match mode_of_event e with
    | Some mode => mode :: modes_executed t
    | None => modes_executed t
    end.
Proof. reflexivity. Qed.

Lemma modes_executed_aftermath (t : list event) :
  Forall (λ e, is_aftermath e = true) t → modes_executed t = [].
Proof.
  induction 1 as [| e t He _ IH]; [done |].
  rewrite modes_executed_cons. by destruct e.
Qed.

Ltac not_in_trace :=
  let H := fresh in
  intros H;
  repeat (apply elem_of_cons in H as [H | H]; [discriminate H |]);
  by apply elem_of_nil in H.

Section Dispatch.

Context (w : World).

Lemma run_or_remote_call (cfg : Config) (m : Model.t) (u : list string) :
  let mode := if bool_decide (is_Some (remote_url cfg))
              then RemoteRun else LocalRun in
  run_or_remote cfg m u = call (event_of_mode cfg u mode) (answer m cfg u mode).
Proof. unfold run_or_remote. by destruct (remote_url cfg). Qed.

Lemma missing_files_aftermath (cfg : Config) (e : exn) :
  Forall (λ e, is_aftermath e = true) (missing_files w cfg e).1.
Proof.
  unfold missing_files, getitem_model, remediation_command.
  destruct (model cfg), (sys_argv w); repeat constructor.
Qed.

Lemma missing_files_exit (cfg : Config) (e : exn) (name prog : string)
  (arguments : list string) :
  model cfg = Some name →
  sys_argv w = prog :: arguments →
  missing_files w cfg e
  = ([LogException e;
      LogError ("It is possible that some files requited by " +:+ name
                +:+ " are missing.");
      LogError "Rerun the command as:";
      LogError ("   " +:+ shlex.join (prog :: "--download-assets" :: arguments))],
     Exited 1).
Proof.
  intros Hmodel Hargv. unfold missing_files, getitem_model, remediation_command.
  by rewrite Hmodel, Hargv.
Qed.

Lemma dump_provenance_to_aftermath (m : Model.t) (file_name : string) :
  Forall (λ e, is_aftermath e = true) (dump_provenance_to w m file_name).1.
Proof.
  unfold dump_provenance_to, with_Timer.
  apply Forall_bind; [by repeat constructor | intros _ _].
  apply Forall_finally; [| done].
  destruct (open_write w file_name); [constructor |].
  apply Forall_bind; [by repeat constructor | intros _ _].
  apply Forall_finally; [| done].
  apply Forall_bind; [by repeat constructor | intros _ _].
  apply Forall_bind.
  { destruct (Model.provenance m); constructor. }
  intros prov _. destruct (json_dump w prov). by apply Forall_call.
Qed.

(** The priority order, spelled out. *)
Lemma select_mode_cases (cfg : Config) :
  select_mode cfg
  = if fields cfg then ShowFields
    else if retrieve_requests cfg
            || (Py.truthy (requests_extra cfg)
                && negb (Py.truthy (archive_requests cfg)))
    then PrintRequests
    else if assets_list cfg then ListAssets
    else if bool_decide (is_Some (remote_url cfg)) then RemoteRun
    else LocalRun.
Proof.
  unfold select_mode, priority. simpl.
  destruct (fields cfg); [done |].
  destruct (retrieve_requests cfg || _); [done |].
  destruct (assets_list cfg); [done |].
  by destruct (bool_decide (is_Some (remote_url cfg))).
Qed.

(** The selected mode is asked for, and no mode before it in the priority
    order is. *)
Lemma select_mode_first (cfg : Config) :
  ∃ earlier later,
    priority = earlier ++ select_mode cfg :: later
    ∧ Forall (λ mode, requested cfg mode = false) earlier
    ∧ requested cfg (select_mode cfg) = true.
Proof.
  rewrite select_mode_cases. unfold priority.
  destruct (fields cfg) eqn:Hfields.
  { by exists [], [PrintRequests; ListAssets; RemoteRun; LocalRun]. }
  destruct (retrieve_requests cfg || _) eqn:Hrequests.
  { exists [ShowFields], [ListAssets; RemoteRun; LocalRun].
    split_and!; [done | by repeat constructor | done]. }
  destruct (assets_list cfg) eqn:Hassets.
  { exists [ShowFields; PrintRequests], [RemoteRun; LocalRun].
    split_and!; [done | by repeat constructor | done]. }
  destruct (bool_decide (is_Some (remote_url cfg))) eqn:Hremote.
  { exists [ShowFields; PrintRequests; ListAssets], [LocalRun].
    split_and!; [done | by repeat constructor | done]. }
  exists [ShowFields; PrintRequests; ListAssets; RemoteRun], [].
  split_and!; [done | by repeat constructor | done].
Qed.

(** The conditions of [run] behind each mode. *)
Lemma select_mode_running (cfg : Config) :
  informational (select_mode cfg) = false →
  fields cfg = false
  ∧ retrieve_requests cfg
    || Py.truthy (requests_extra cfg)
       && negb (Py.truthy (archive_requests cfg)) = false
  ∧ assets_list cfg = false
  ∧ select_mode cfg
    = if bool_decide (is_Some (remote_url cfg)) then RemoteRun else LocalRun.
Proof.
  rewrite select_mode_cases.
  destruct (fields cfg); [done |].
  destruct (retrieve_requests cfg || _); [done |].
  by destruct (assets_list cfg).
Qed.

(** Up to the dispatch: the model is loaded. *)
Lemma run_loads (cfg : Config) (u : list string) (name : string) (m : Model.t) :
  model cfg = Some name →
  load_model w name cfg u = inr m →
  run w cfg u
  = ([LoadModel name cfg u], Returned tt) ≫= λ _,
    when (fields cfg) (
      call Model_print_fields (Model.print_fields m) ;; sys_exit 0) ;;
    when (retrieve_requests cfg
          || (Py.truthy (requests_extra cfg)
              && negb (Py.truthy (archive_requests cfg)))) (
      call Model_print_requests (Model.print_requests m) ;; sys_exit 0) ;;
    when (assets_list cfg) (
      call Model_print_assets_list (Model.print_assets_list m) ;;
      sys_exit 0) ;;
    try_except_FileNotFoundError
      (run_or_remote cfg m u) (missing_files w cfg) ;;
    call Model_finalise (Model.finalise m) ;;
    when (Py.truthy (dump_provenance cfg))
      (dump_provenance_to w m (default "" (dump_provenance cfg))).
Proof.
  intros Hmodel Hload. unfold run, getitem_model.
  rewrite Hmodel, bind_ret_l, Hload. unfold lift. by rewrite bind_ret_l.
Qed.

(** The three informational modes: one operation, then the exit. *)
Lemma run_informational (cfg : Config) (u : list string) (name : string)
  (m : Model.t) :
  model cfg = Some name →
  load_model w name cfg u = inr m →
  informational (select_mode cfg) = true →
  run w cfg u
  = ([LoadModel name cfg u; event_of_mode cfg u (select_mode cfg)],
     match answer m cfg u (select_mode cfg) with
     | None => Exited 0
     | Some e => Raised e
     end).
Proof.
  intros Hmodel Hload. rewrite (run_loads _ _ _ _ Hmodel Hload).
  rewrite select_mode_cases.
  destruct (fields cfg); simpl.
  { intros _. by destruct (Model.print_fields m). }
  destruct (retrieve_requests cfg
            || Py.truthy (requests_extra cfg)
               && negb (Py.truthy (archive_requests cfg))); simpl.
  { intros _. by destruct (Model.print_requests m). }
  destruct (assets_list cfg); simpl.
  { intros _. by destruct (Model.print_assets_list m). }
  by destruct (bool_decide (is_Some (remote_url cfg))).
Qed.

(** The two running modes: the run, the report of missing files if it
    fails for want of a file, otherwise the finalisation and the dump. *)
Lemma run_executes (cfg : Config) (u : list string) (name : string)
  (m : Model.t) :
  model cfg = Some name →
  load_model w name cfg u = inr m →
  informational (select_mode cfg) = false →
  run w cfg u
  = ([LoadModel name cfg u], Returned tt) ≫= λ _,
    try_except_FileNotFoundError
      (call (event_of_mode cfg u (select_mode cfg))
            (answer m cfg u (select_mode cfg)))
      (missing_files w cfg) ;;
    call Model_finalise (Model.finalise m) ;;
    when (Py.truthy (dump_provenance cfg))
      (dump_provenance_to w m (default "" (dump_provenance cfg))).
Proof.
  intros Hmodel Hload (Hfields & Hrequests & Hassets & Hmode)%select_mode_running.
  rewrite (run_loads _ _ _ _ Hmodel Hload).
  rewrite Hfields, Hrequests, Hassets, Hmode, run_or_remote_call.
  by rewrite !when_false, !bind_ret_l.
Qed.

(** In every case, after the operation of the mode comes only the
    aftermath. *)
Lemma run_trace (cfg : Config) (u : list string) (name : string) (m : Model.t) :
  model cfg = Some name →
  load_model w name cfg u = inr m →
  ∃ tail,
    (run w cfg u).1
    = LoadModel name cfg u :: event_of_mode cfg u (select_mode cfg) :: tail
    ∧ Forall (λ e, is_aftermath e = true) tail.
Proof.
  intros Hmodel Hload.
  destruct (informational (select_mode cfg)) eqn:Hinfo.
  { rewrite (run_informational _ _ _ _ Hmodel Hload Hinfo). by exists []. }
  rewrite (run_executes _ _ _ _ Hmodel Hload Hinfo), bind_Returned.
  set (after := λ _ : unit,
         call Model_finalise (Model.finalise m) ;;
         when (Py.truthy (dump_provenance cfg))
           (dump_provenance_to w m (default "" (dump_provenance cfg)))).
  assert (Hafter : Forall (λ e, is_aftermath e = true) (after tt).1).
  { apply Forall_bind; [by apply Forall_call | intros _ _].
    destruct (Py.truthy (dump_provenance cfg)); [| constructor].
    apply dump_provenance_to_aftermath. }
  pose proof (missing_files_aftermath cfg) as Hmissing.
  generalize (event_of_mode cfg u (select_mode cfg)). intros ev.
  destruct (answer m cfg u (select_mode cfg)) as [[] |]; simpl;
    try (by exists []).
  - specialize (Hmissing (FileNotFoundError msg)).
    destruct (missing_files w cfg (FileNotFoundError msg)) as [t [[] | |]];
      simpl in *; eauto.
    destruct (after ()) as [t' r']. simpl in *.
    eexists. split; [done |]. by apply Forall_app.
  - destruct (after ()) as [t' r']. simpl in *. eauto.
Qed.

End Dispatch.

(** C1.  Once the model is loaded, [run] carries out exactly one of the five
    modes, the first in the order ShowFields, PrintRequests, ListAssets,
    RemoteRun, LocalRun whose condition holds (so the fields win over the
    retrieve requests); an informational mode consists of its one operation
    and the exit with status 0, and never reaches the run or the remote run
    of the model. *)
Theorem run_exactly_one_mode (w : World) (cfg : Config) (u : list string)
  (name : string) (m : Model.t) :
  model cfg = Some name →
  load_model w name cfg u = inr m →
  modes_executed (run w cfg u).1 = [select_mode cfg]
  ∧ (∃ earlier later,
       priority = earlier ++ select_mode cfg :: later
       ∧ Forall (λ mode, requested cfg mode = false) earlier
       ∧ requested cfg (select_mode cfg) = true)
  ∧ (fields cfg = true → select_mode cfg = ShowFields)
  ∧ (informational (select_mode cfg) = true →
     answer m cfg u (select_mode cfg) = None →
     run w cfg u
     = ([LoadModel name cfg u; event_of_mode cfg u (select_mode cfg)],
        Exited 0)
     ∧ (Model_run ∉ (run w cfg u).1)
     ∧ (∀ cfg' u', Model_remote cfg' u' ∉ (run w cfg u).1)).
Proof.
  intros Hmodel Hload. split; [| split; [| split]].
  - destruct (run_trace w _ _ _ _ Hmodel Hload) as (tail & -> & Htail).
    rewrite !modes_executed_cons, (modes_executed_aftermath _ Htail).
    by destruct (select_mode cfg).
  - apply select_mode_first.
  - rewrite select_mode_cases. by intros ->.
  - intros Hinfo Hanswer.
    rewrite (run_informational _ _ _ _ _ Hmodel Hload Hinfo), Hanswer.
    split; [done |].
    destruct (select_mode cfg); try done; simpl;
      (split; [| intros ??]); not_in_trace.
Qed.

(** ** The report of missing files *)

Lemma quote_plain (s : string) : shlex.plain s = true → shlex.quote s = s.
Proof.
  unfold shlex.plain, shlex.quote.
  by destruct (String.eqb s ""), (shlex.find_unsafe s).
Qed.

Lemma join_plain (words : list string) :
  forallb shlex.plain words = true → shlex.join words = Py.join " " words.
Proof.
  unfold shlex.join. intros Hwords. f_equal.
  induction words as [| word words IH]; [done |].
  apply andb_prop in Hwords as [Hword Hwords]. simpl.
  by rewrite (quote_plain _ Hword), IH.
Qed.

(** The process around [run]: the total timer and what resolution left in
    the trace. *)
Lemma main_of_run (w : World) (cfg : Config) (u argv : list string)
  (prog : string) (pre t : list event) (r : outcome unit) :
  sys_argv w = prog :: argv →
  _main w argv = (pre, Returned tt) ≫= (λ _, run w cfg u) →
  run w cfg u = (t, r) →
  main w
  = (TimerEnter "Total time" :: pre ++ t ++ [TimerExit "Total time"], r).
Proof.
  intros Hargv Hmain Hrun. unfold main, with_Timer. rewrite Hargv. simpl.
  rewrite Hmain, bind_Returned, Hrun. simpl. by rewrite app_assoc.
Qed.

(** C2.  When the run, local or remote, fails for want of a file, [run] logs
    the error, a hint that names the model, and the command to rerun: the
    program name, [--download-assets], then the original arguments in their
    order (as typed, when no word needs quoting); it then exits with status
    1, which is not the status of a usage error, and so does the process.
    The model is run once and is not finalised. *)
Theorem run_missing_files (w : World) (cfg : Config) (u : list string)
  (name : string) (m : Model.t) (msg prog : string) (argv : list string) :
  model cfg = Some name →
  load_model w name cfg u = inr m →
  informational (select_mode cfg) = false →
  answer m cfg u (select_mode cfg) = Some (FileNotFoundError msg) →
  sys_argv w = prog :: argv →
  let report :=
    [LoadModel name cfg u;
     event_of_mode cfg u (select_mode cfg);
     LogException (FileNotFoundError msg);
     LogError ("It is possible that some files requited by " +:+ name
               +:+ " are missing.");
     LogError "Rerun the command as:";
     LogError ("   " +:+ shlex.join (prog :: "--download-assets" :: argv))] in
  run w cfg u = (report, Exited 1)
  ∧ (∀ pre,
       _main w argv = (pre, Returned tt) ≫= (λ _, run w cfg u) →
       main w
       = (TimerEnter "Total time" :: pre ++ report
            ++ [TimerExit "Total time"],
          Exited 1))
  ∧ (1 ≠ 0)%Z ∧ (1 ≠ usage_status)%Z
  ∧ (forallb shlex.plain (prog :: argv) = true →
     shlex.join (prog :: "--download-assets" :: argv)
     = Py.join " " (prog :: "--download-assets" :: argv)).
Proof.
  intros Hmodel Hload Hinfo Hanswer Hargv report.
  assert (run w cfg u = (report, Exited 1)) as Hrun.
  { rewrite (run_executes _ _ _ _ _ Hmodel Hload Hinfo), Hanswer.
    unfold call, try_except_FileNotFoundError. simpl.
    by rewrite (missing_files_exit _ _ _ _ _ _ Hmodel Hargv). }
  split_and!; [done | | done | done |].
  - intros pre Hmain. by apply (main_of_run w cfg u argv prog).
  - intros [Hprog Harguments]%andb_prop. apply join_plain.
    change (shlex.plain prog && (true && forallb shlex.plain argv) = true).
    by rewrite Hprog.
Qed.

(** ** The provenance dump *)

(** C10.  With a provenance path configured, the file is opened for writing,
    hence created or truncated, before the model is asked for its
    provenance: when the collection fails the file is left empty, when the
    serialisation fails it is left with what was written until then. *)
Theorem run_provenance_not_atomic (w : World) (cfg : Config) (u : list string)
  (name : string) (m : Model.t) (file_name : string) :
  model cfg = Some name →
  load_model w name cfg u = inr m →
  informational (select_mode cfg) = false →
  answer m cfg u (select_mode cfg) = None →
  Model.finalise m = None →
  dump_provenance cfg = Some file_name →
  file_name ≠ "" →
  open_write w file_name = None →
  let before :=
    [LoadModel name cfg u; event_of_mode cfg u (select_mode cfg);
     Model_finalise; TimerEnter "Collect provenance information";
     OpenWrite file_name; Model_provenance] in
  let after :=
    [FileClose file_name; TimerExit "Collect provenance information"] in
  (∀ e, Model.provenance m = inl e →
     run w cfg u = (before ++ after, Raised e)
     ∧ ∀ files, files_after (run w cfg u).1 files !! file_name = Some "")
  ∧ (∀ prov text e,
       Model.provenance m = inr prov →
       json_dump w prov = (text, Some e) →
       run w cfg u = (before ++ FileWrite file_name text :: after, Raised e)
       ∧ ∀ files, files_after (run w cfg u).1 files !! file_name = Some text).
Proof.
  intros Hmodel Hload Hinfo Hanswer Hfinalise Hdump Hname Hopen before after.
  assert (Htruthy : Py.truthy (dump_provenance cfg) = true).
  { rewrite Hdump. simpl. apply negb_true_iff, String.eqb_neq, Hname. }
  rewrite (run_executes _ _ _ _ _ Hmodel Hload Hinfo), Hanswer, Hfinalise.
  rewrite Htruthy, Hdump.
  change (default "" (Some file_name)) with file_name.
  unfold dump_provenance_to. rewrite Hopen.
  split.
  - intros e ->. split; [done |]. intros files.
    unfold files_after. simpl. by rewrite lookup_insert_eq.
  - intros prov text e -> Hwritten. simpl. rewrite Hwritten.
    split; [done |]. intros files. unfold files_after. simpl.
    rewrite lookup_alter_eq, lookup_insert_eq. done.
Qed.

(** ** Resolution: what reaches [run] *)

Lemma dict_one_equals (tokens : list string) :
  forallb one_equals tokens = true →
  ∃ d, dict (map (Py.split "=") tokens) = inr d
       ∧ metadata_by_first_equals tokens ∅ = Some d.
Proof. apply dict_update_one_equals. Qed.

Lemma dict_not_one_equals (tokens : list string) :
  forallb one_equals tokens = false →
  ∃ msg, dict (map (Py.split "=") tokens) = inl (ValueError msg).
Proof. apply dict_update_not_one_equals. Qed.

Lemma resolves_run (w : World) (args : Args) (u : list string) :
  resolves args = true →
  ∃ name d,
    model args = Some name
    ∧ dict (map (Py.split "=") (default [] (metadata args))) = inr d
    ∧ metadata_by_first_equals (default [] (metadata args)) ∅ = Some d
    ∧ _main_resolve w args u
      = (logging_events args, Returned tt) ≫= λ _,
        run w (resolved_config args name d) u.
Proof.
  unfold resolves. rewrite !andb_true_iff, negb_true_iff, bool_decide_eq_true.
  intros ((((Hmodels & [name Hmodel]) & Htokens) & Hextra) & Hremote).
  destruct (dict_one_equals _ Htokens) as (d & Hdict & Hspec).
  exists name, d. split_and!; try done. by apply _main_resolve_run.
Qed.

Lemma not_usage_error_Raised {A} (t : list event) (e : exn) :
  ¬ is_usage_error (t, Raised e : outcome A).
Proof. by intros (? & ? & [=]). Qed.

(** C3, as the code has it.  The metadata tokens are cut at every ["="]:
    when each token holds exactly one, the map is the one the specification
    describes (a key and a value per token, the dedicated options over it);
    when some token holds none or several, the stage raises a [ValueError],
    which is not a usage error, and resolution ends there. *)
Theorem metadata_cut_at_every_equals (w : World) (args : Args)
  (u : list string) (name : string) :
  (forallb one_equals (default [] (metadata args)) = true →
   metadata_as_specified args
   ∧ ∃ d, metadata_by_first_equals (default [] (metadata args)) ∅ = Some d
          ∧ _main_metadata args = ret (_main_dedicated args d))
  ∧ (forallb one_equals (default [] (metadata args)) = false →
     ∃ msg,
       _main_metadata args = raise (ValueError msg)
       ∧ ¬ is_usage_error (_main_metadata args)
       ∧ (models args = false → model args = Some name →
          _main_resolve w args u
          = (logging_events args, Raised (ValueError msg)))).
Proof.
  split; intros Htokens.
  - destruct (dict_one_equals _ Htokens) as (d & Hdict & Hspec).
    assert (_main_metadata args = ret (_main_dedicated args d)) as Hmeta.
    { by rewrite _main_metadata_dict, Hdict. }
    split; [| eauto]. unfold metadata_as_specified. by rewrite Hspec.
  - destruct (dict_not_one_equals _ Htokens) as (msg & Hdict).
    assert (_main_metadata args = raise (ValueError msg)) as Hmeta.
    { by rewrite _main_metadata_dict, Hdict. }
    exists msg. split_and!; [done | |].
    + rewrite Hmeta. apply not_usage_error_Raised.
    + intros Hmodels Hmodel. unfold _main_resolve.
      rewrite (_main_models_false _ _ Hmodels), (_main_paths_model _ _ Hmodel).
      rewrite _main_logging_events, Hmeta, bind_ret_l, !bind_Returned. simpl.
      by rewrite app_nil_r.
Qed.





(** C6.  When resolution reaches [run], the configuration it passes holds
    the value of [--expver] under ["expver"] and the value of [--class]
    under ["class"], whatever the metadata tokens gave for these keys; every
    other key is as the tokens gave it. *)
Theorem dedicated_options_win (w : World) (args : Args) (u : list string) :
  resolves args = true →
  ∃ cfg d,
    metadata_by_first_equals (default [] (metadata args)) ∅ = Some d
    ∧ _main_resolve w args u
      = (logging_events args, Returned tt) ≫= (λ _, run w cfg u)
    ∧ (∀ v, expver args = Some v → metadata cfg !! "expver" = Some v)
    ∧ (∀ v, class_ args = Some v → metadata cfg !! "class" = Some v)
    ∧ (∀ k, (k = "expver" → expver args = None) →
            (k = "class" → class_ args = None) →
            metadata cfg !! k = d !! k).
Proof.
  intros (name & d & Hmodel & Hdict & Hspec & Hrun)%(resolves_run w _ u).
  exists (resolved_config args name d), d. split_and!; try done.
  - intros v Hv. simpl. unfold _main_dedicated. rewrite Hv.
    destruct (class_ args); [| by rewrite lookup_insert_eq].
    rewrite lookup_insert_ne by done. by rewrite lookup_insert_eq.
  - intros v Hv. simpl. unfold _main_dedicated. rewrite Hv.
    by rewrite lookup_insert_eq.
  - intros k Hexpver Hclass. simpl. unfold _main_dedicated.
    destruct (class_ args) as [vc |], (expver args) as [ve |];
      rewrite ?lookup_insert_ne; try done; intros <-; naive_solver.
Qed.

(** C8.  When [--file] is given and resolution reaches [run], the
    configuration it passes has the input kind ["file"], whatever [--input]
    said. *)
Theorem file_forces_input (w : World) (args : Args) (u : list string)
  (f : string) :
  file args = Some f →
  resolves args = true →
  ∃ cfg,
    _main_resolve w args u
    = (logging_events args, Returned tt) ≫= (λ _, run w cfg u)
    ∧ input cfg = "file"
    ∧ file cfg = Some f.
Proof.
  intros Hfile (name & d & Hmodel & Hdict & Hspec & Hrun)%(resolves_run w _ u).
  exists (resolved_config args name d). split; [done |]. simpl.
  unfold _main_input. by rewrite Hfile.
Qed.

(** ** Listing the models *)

(** C7.  When the token [--models] is on the command line, the parser is
    built without the MODEL positional, so none is asked for; when the
    parser sees the flag, the sorted names of the available models are
    printed, one by line, the process exits with status 0, and no model is
    loaded. *)
Theorem models_flag_lists_and_exits (w : World) (argv : list string) :
  "--models" ∈ argv →
  declares_model argv = false
  ∧ ∀ supplied u,
      parse_known_args w false argv = Parsed supplied u →
      models supplied = true →
      _main w argv
      = (SetEnv "PYTORCH_ENABLE_MPS_FALLBACK" "1"
         :: (Print <$> Py.sorted (available_models w)),
         Exited 0)
      ∧ Py.sorted (available_models w) ≡ₚ available_models w
      ∧ Forall (λ e, is_model_event e = false) (_main w argv).1.
Proof.
  intros Hargv.
  assert (declares_model argv = false) as Hdeclares.
  { unfold declares_model. by rewrite bool_decide_eq_true_2. }
  split; [done |]. intros supplied u Hparse Hmodels.
  assert (_main w argv
          = (SetEnv "PYTORCH_ENABLE_MPS_FALLBACK" "1"
             :: (Print <$> Py.sorted (available_models w)),
             Exited 0)) as Hmain.
  { unfold _main. rewrite Hdeclares, Hparse. unfold _main_resolve.
    rewrite (_main_models_true w (namespace_of w supplied) Hmodels).
    by rewrite bind_Exited. }
  split_and!; [done | apply sorted_Permutation |].
  rewrite Hmain. simpl. constructor; [done |].
  apply Forall_fmap, Forall_true. done.
Qed.

(** ** The quiet modes *)

Section Quiet.

Context (w : World).

(** The trace of [run], whatever the configuration. *)
Lemma run_trace_any (cfg : Config) (u : list string) :
  (run w cfg u).1 = []
  ∨ (∃ name, (run w cfg u).1 = [LoadModel name cfg u])
  ∨ ∃ name tail,
      (run w cfg u).1
      = LoadModel name cfg u :: event_of_mode cfg u (select_mode cfg) :: tail
      ∧ Forall (λ e, is_aftermath e = true) tail.
Proof.
  destruct (model cfg) as [name |] eqn:Hmodel.
  - destruct (load_model w name cfg u) as [e | m] eqn:Hload.
    + right. left. exists name. unfold run, getitem_model.
      by rewrite Hmodel, bind_ret_l, Hload.
    + right. right. exists name. by apply (run_trace w _ _ _ m).
  - left. unfold run, getitem_model. by rewrite Hmodel.
Qed.

Lemma run_event_mode (cfg : Config) (u : list string) (e : event)
  (mode : ExecutionMode) :
  e ∈ (run w cfg u).1 → mode_of_event e = Some mode → mode = select_mode cfg.
Proof.
  intros He Hmode.
  destruct (run_trace_any cfg u) as [Ht | [[name Ht] | (name & tail & Ht & Htail)]];
    rewrite Ht in He.
  - by apply elem_of_nil in He.
  - apply list_elem_of_singleton in He as ->. done.
  - apply elem_of_cons in He as [-> | He]; [done |].
    apply elem_of_cons in He as [-> | He].
    + destruct (select_mode cfg); by simplify_eq/=.
    + rewrite Forall_forall in Htail. specialize (Htail e He).
      by destruct e.
Qed.

Lemma run_no_logging_config (cfg : Config) (u : list string) (e : event) :
  e ∈ (run w cfg u).1 → is_logging_config e = false.
Proof.
  intros He.
  destruct (run_trace_any cfg u) as [Ht | [[name Ht] | (name & tail & Ht & Htail)]];
    rewrite Ht in He.
  - by apply elem_of_nil in He.
  - by apply list_elem_of_singleton in He as ->.
  - apply elem_of_cons in He as [-> | He]; [done |].
    apply elem_of_cons in He as [-> | He].
    + by destruct (select_mode cfg).
    + rewrite Forall_forall in Htail. specialize (Htail e He).
      by destruct e.
Qed.

(** Where an event of resolution comes from. *)
Lemma _main_resolve_event (args : Args) (u : list string) (e : event) :
  e ∈ (_main_resolve w args u).1 →
  (∃ p, e = Print p)
  ∨ (∃ msg, e = ParserError msg)
  ∨ (models args = false ∧ e ∈ logging_events args)
  ∨ (models args = false ∧ requests_extra_ok args = true
     ∧ remote_ok args = true
     ∧ ∃ assets' path' d,
         dict (map (Py.split "=") (default [] (metadata args))) = inr d
         ∧ e ∈ (run w (vars args assets' path' (_main_input args)
                         (_main_dedicated args d)) u).1).
Proof.
  unfold _main_resolve. destruct (models args) eqn:Hmodels.
  { rewrite (_main_models_true w _ Hmodels), bind_Exited. simpl.
    intros (p & -> & _)%list_elem_of_fmap. left. eauto. }
  rewrite (_main_models_false w _ Hmodels), bind_ret_l.
  intros [He | ([assets' path'] & _ & He)]%elem_of_bind.
  { destruct (_main_paths_cases args) as [[? Ht] | (_ & ? & Ht)];
      rewrite Ht in He; by apply elem_of_nil in He. }
  rewrite _main_logging_events in He.
  apply elem_of_bind in He as [He | (_ & _ & He)]; [by right; right; left |].
  apply elem_of_bind in He as [He | (d' & Hd & He)].
  { rewrite _main_metadata_dict in He. destruct (dict _); by apply elem_of_nil in He. }
  rewrite _main_metadata_dict in Hd.
  destruct (dict _) as [? | d] eqn:Hdict; [done |].
  simpl in Hd. injection Hd as Hd. subst d'.
  rewrite _main_checks_ok in He.
  destruct (requests_extra_ok args).
  - destruct (remote_ok args).
    + apply elem_of_bind in He as [He | (_ & _ & He)];
        [by apply elem_of_nil in He |].
      right; right; right. eauto 10.
    + apply list_elem_of_singleton in He as ->. right; left. eauto.
  - apply list_elem_of_singleton in He as ->. right; left. eauto.
Qed.

Lemma _main_resolve_logging (args : Args) (u : list string) (level : string) :
  LoggingBasicConfig level ∈ (_main_resolve w args u).1 →
  fields args = false ∧ retrieve_requests args = false.
Proof.
  intros He.
  apply _main_resolve_event in He
    as [[p [=]] | [[msg [=]] | [[_ He] | (_ & _ & _ & ? & ? & ? & _ & He)]]].
  - unfold logging_events in He.
    destruct (fields args), (retrieve_requests args); simpl in He;
      try done; by apply elem_of_nil in He.
  - by apply run_no_logging_config in He.
Qed.

Lemma _main_resolve_print_fields (args : Args) (u : list string) :
  Model_print_fields ∈ (_main_resolve w args u).1 → fields args = true.
Proof.
  intros He.
  apply _main_resolve_event in He
    as [[p [=]] | [[msg [=]] | [[_ He] | (_ & _ & _ & ? & ? & ? & _ & He)]]].
  - unfold logging_events in He.
    destruct (_ && _); [by apply list_elem_of_singleton in He
                       | by apply elem_of_nil in He].
  - apply (run_event_mode _ _ _ ShowFields) in He; [| done].
    rewrite select_mode_cases in He. simpl in He.
    destruct (fields args); [done |].
    destruct (_ || _); [done |]. destruct (assets_list args); [done |].
    by destruct (bool_decide _).
Qed.

Lemma _main_resolve_print_requests (args : Args) (u : list string) :
  Model_print_requests ∈ (_main_resolve w args u).1 →
  fields args = false ∧ retrieve_requests args = true.
Proof.
  intros He.
  apply _main_resolve_event in He
    as [[p [=]] | [[msg [=]] | [[_ He] | (_ & Hok & _ & ? & ? & ? & _ & He)]]].
  - unfold logging_events in He.
    destruct (_ && _); [by apply list_elem_of_singleton in He
                       | by apply elem_of_nil in He].
  - apply (run_event_mode _ _ _ PrintRequests) in He; [| done].
    rewrite select_mode_cases in He. simpl in He. unfold requests_extra_ok in Hok.
    destruct (fields args); [done |].
    destruct (retrieve_requests args); [done |].
    destruct (Py.truthy (requests_extra args)),
      (Py.truthy (archive_requests args)); simpl in *; try done;
      destruct (assets_list args); try done; by destruct (bool_decide _).
Qed.

Lemma run_loads_first (cfg : Config) (u : list string) (name : string) :
  model cfg = Some name → ∃ t, (run w cfg u).1 = LoadModel name cfg u :: t.
Proof.
  intros Hmodel. unfold run, getitem_model. rewrite Hmodel, bind_ret_l.
  unfold emit. rewrite bind_Returned. simpl. eauto.
Qed.

(** [resolves] is the condition under which the model is loaded. *)
Lemma resolves_iff_loads (args : Args) (u : list string) :
  resolves args = true
  ↔ ∃ name cfg, LoadModel name cfg u ∈ (_main_resolve w args u).1.
Proof.
  split.
  - intros Hresolves.
    destruct (resolves_run w args u Hresolves)
      as (name & d & Hmodel & _ & _ & ->).
    exists name, (resolved_config args name d).
    apply elem_of_bind. right. exists tt. split; [done |].
    destruct (run_loads_first (resolved_config args name d) u name Hmodel)
      as [t ->].
    apply list_elem_of_here.
  - intros (name & cfg & He).
    apply _main_resolve_event in He
      as [[p [=]] | [[msg [=]]
          | [[_ He] | (Hmodels & Hextra & Hremote & a & p & d & Hdict & He)]]].
    { unfold logging_events in He.
      destruct (_ && _); [by apply list_elem_of_singleton in He
                         | by apply elem_of_nil in He]. }
    unfold resolves. rewrite Hmodels, Hextra, Hremote, !andb_true_r. simpl.
    apply andb_true_intro. split.
    + apply bool_decide_eq_true. unfold run, getitem_model in He. simpl in He.
      destruct (model args); [by eexists | by apply elem_of_nil in He].
    + destruct (forallb one_equals (default [] (metadata args))) eqn:Htokens;
        [done |].
      apply dict_not_one_equals in Htokens as [msg Hmsg]. congruence.
Qed.

Lemma _main_resolve_configures_logging (args : Args) (u : list string) :
  models args = false →
  is_Some (model args) →
  fields args = false →
  retrieve_requests args = false →
  LoggingBasicConfig (if debug args then "DEBUG" else "INFO")
  ∈ (_main_resolve w args u).1.
Proof.
  intros Hmodels [name Hmodel] Hfields Hretrieve. unfold _main_resolve.
  rewrite (_main_models_false w _ Hmodels), bind_ret_l.
  rewrite (_main_paths_model _ _ Hmodel), bind_Returned. simpl.
  rewrite _main_logging_events. apply elem_of_bind. left.
  unfold logging_events. rewrite Hfields, Hretrieve. apply list_elem_of_here.
Qed.

(** What the whole process adds around resolution. *)
Lemma main_event (e : event) :
  e ∈ (main w).1 →
  is_model_event e = true ∨ is_logging_config e = true →
  ∃ supplied u,
    parse_known_args w (declares_model (tail (sys_argv w))) (tail (sys_argv w))
    = Parsed supplied u
    ∧ e ∈ (_main_resolve w (namespace_of w supplied) u).1.
Proof.
  unfold main, with_Timer, _main. intros He Hkind.
  apply elem_of_bind in He as [He | (_ & _ & He)].
  { apply list_elem_of_singleton in He as ->. by destruct Hkind. }
  unfold finally in He.
  destruct (emit _ ≫= _) as [t r] eqn:Hmain. simpl in He.
  apply elem_of_app in He as [He | He].
  2: { apply list_elem_of_singleton in He as ->. by destruct Hkind. }
  assert (e ∈ (t, r).1) as He' by done. rewrite <- Hmain in He'.
  apply elem_of_bind in He' as [He' | (_ & _ & He')].
  { apply list_elem_of_singleton in He' as ->. by destruct Hkind. }
  destruct (parse_known_args w _ _) as [msg | text | supplied u].
  - apply list_elem_of_singleton in He' as ->. by destruct Hkind.
  - apply list_elem_of_singleton in He' as ->. by destruct Hkind.
  - eauto.
Qed.

End Quiet.

(** C9.  Logging is configured during resolution only when neither the
    fields nor the retrieve requests are asked for (and then it is, once
    past [--models] and the paths); the fields are printed only when asked
    for, and the requests are printed only when [--retrieve-requests] is
    set, also when [--requests-extra] is given; so a process that prints the
    fields or the requests never configures logging. *)
Theorem quiet_modes (w : World) (args : Args) (u : list string) :
  let t := (_main_resolve w args u).1 in
  (∀ level, LoggingBasicConfig level ∈ t →
            fields args = false ∧ retrieve_requests args = false)
  ∧ (models args = false → is_Some (model args) →
     fields args = false → retrieve_requests args = false →
     LoggingBasicConfig (if debug args then "DEBUG" else "INFO") ∈ t)
  ∧ (Model_print_fields ∈ t → fields args = true)
  ∧ (Model_print_requests ∈ t → retrieve_requests args = true)
  ∧ (Model_print_fields ∈ t ∨ Model_print_requests ∈ t →
     ∀ level, LoggingBasicConfig level ∉ t)
  ∧ (Model_print_fields ∈ (main w).1 ∨ Model_print_requests ∈ (main w).1 →
     ∀ level, LoggingBasicConfig level ∉ (main w).1).
Proof.
  intros t. split_and!.
  - intros level. apply _main_resolve_logging.
  - apply _main_resolve_configures_logging.
  - apply _main_resolve_print_fields.
  - intros H. by apply _main_resolve_print_requests in H as [_ ?].
  - intros Hquiet level Hlogging.
    apply _main_resolve_logging in Hlogging as [Hfields Hretrieve].
    destruct Hquiet as [H | H].
    + apply _main_resolve_print_fields in H. congruence.
    + apply _main_resolve_print_requests in H as [_ H]. congruence.
  - intros Hquiet level Hlogging.
    apply main_event in Hlogging as (c & u' & Hparse & Hlogging); [| by right].
    apply _main_resolve_logging in Hlogging as [Hfields Hretrieve].
    destruct Hquiet as [H | H];
      (apply main_event in H as (c' & u'' & Hparse' & H); [| by left]);
      rewrite Hparse in Hparse'; injection Hparse' as <- <-.
    + apply _main_resolve_print_fields in H. congruence.
    + apply _main_resolve_print_requests in H as [_ H]. congruence.
Qed.

(** ** The theorems at sample invocations *)

Lemma run_exactly_one_mode_witness :
  let w := world_of [] "ai-models" ["--fields"; "--retrieve-requests"; "X"]
             fields_and_requests quiet_model ("{}", None) in
  let cfg := resolved_config (namespace_of w fields_and_requests) "X" ∅ in
  modes_executed (run w cfg []).1 = [ShowFields]
  ∧ run w cfg [] = ([LoadModel "X" cfg []; Model_print_fields], Exited 0).
Proof.
  intros w cfg.
  destruct (run_exactly_one_mode w cfg [] "X" quiet_model eq_refl eq_refl)
    as (Hmodes & _ & _ & Hinformational).
  split; [exact Hmodes |]. by apply Hinformational.
Defined.

Lemma run_missing_files_witness :
  let m := model_answering (Some (FileNotFoundError "weights.onnx")) (inr JNull) in
  let w := world_of [] "prog" ["--only-gpu"; "X"] only_gpu_X m ("{}", None) in
  let cfg := resolved_config (namespace_of w only_gpu_X) "X" ∅ in
  main w
  = ([TimerEnter "Total time";
      SetEnv "PYTORCH_ENABLE_MPS_FALLBACK" "1";
      LoggingBasicConfig "INFO";
      LoadModel "X" cfg []; Model_run;
      LogException (FileNotFoundError "weights.onnx");
      LogError "It is possible that some files requited by X are missing.";
      LogError "Rerun the command as:";
      LogError "   prog --download-assets --only-gpu X";
      TimerExit "Total time"],
     Exited 1).
Proof.
  intros m w cfg.
  destruct (run_missing_files w cfg [] "X" m "weights.onnx" "prog"
              ["--only-gpu"; "X"] eq_refl eq_refl eq_refl eq_refl eq_refl)
    as (_ & Hmain & _).
  exact (Hmain [SetEnv "PYTORCH_ENABLE_MPS_FALLBACK" "1";
                LoggingBasicConfig "INFO"] eq_refl).
Defined.

Lemma run_provenance_not_atomic_witness :
  let failure := OtherError "RuntimeError" "no provenance" in
  let m := model_answering None (inl failure) in
  let w := world_of [] "ai-models" ["--dump-provenance"; "p.json"; "X"]
             dump_to_p_json m ("{}", None) in
  let cfg := resolved_config (namespace_of w dump_to_p_json) "X" ∅ in
  (run w cfg []).2 = Raised failure
  ∧ files_after (run w cfg []).1 {["p.json" := "{ }"]} !! "p.json" = Some "".
Proof.
  intros failure m w cfg.
  assert ("p.json" ≠ "") as Hname by done.
  destruct (run_provenance_not_atomic w cfg [] "X" m "p.json"
              eq_refl eq_refl eq_refl eq_refl eq_refl eq_refl Hname eq_refl)
    as [Hcollect _].
  destruct (Hcollect failure eq_refl) as [Hrun Hfiles].
  split; [by rewrite Hrun | apply Hfiles].
Defined.

Lemma metadata_cut_at_every_equals_witness :
  let w := world_of [] "ai-models" ["--metadata"; "stream=oper"; "X"]
             (metadata_token "stream=oper") quiet_model ("{}", None) in
  let good := namespace_of w (metadata_token "stream=oper") in
  let bad := namespace_of w (metadata_token "a=b=c") in
  metadata_as_specified good
  ∧ ∃ msg, _main_resolve w bad []
           = ([LoggingBasicConfig "INFO"], Raised (ValueError msg)).
Proof.
  intros w good bad. split.
  - exact (proj1 (proj1 (metadata_cut_at_every_equals w good [] "X") eq_refl)).
  - destruct (proj2 (metadata_cut_at_every_equals w bad [] "X") eq_refl)
      as (msg & _ & _ & Hresolve).
    exists msg. exact (Hresolve eq_refl eq_refl).
Defined.



Lemma dedicated_options_win_witness :
  let w := world_of [] "ai-models" [] metadata_and_dedicated quiet_model
             ("{}", None) in
  ∃ cfg,
    _main_resolve w (namespace_of w metadata_and_dedicated) []
    = ([LoggingBasicConfig "INFO"], Returned tt) ≫= (λ _, run w cfg [])
    ∧ metadata cfg !! "expver" = Some "abcd"
    ∧ metadata cfg !! "class" = Some "rd"
    ∧ metadata cfg !! "stream" = Some "oper".
Proof.
  intros w.
  destruct (dedicated_options_win w (namespace_of w metadata_and_dedicated) []
              eq_refl)
    as (cfg & d & Hd & Hrun & Hexpver & Hclass & Hother).
  exists cfg. split_and!; [exact Hrun | by apply Hexpver | by apply Hclass |].
  rewrite Hother by done.
  assert (d = <["stream" := "oper"]>
                (<["class" := "od"]> (<["expver" := "0001"]> ∅))) as ->.
  { apply (inj Some). rewrite <- Hd. reflexivity. }
  apply lookup_insert_eq.
Defined.

Lemma models_flag_lists_and_exits_witness :
  let w := world_of [] "ai-models" ["--models"] models_only quiet_model
             ("{}", None) in
  _main w ["--models"]
  = ([SetEnv "PYTORCH_ENABLE_MPS_FALLBACK" "1"; Print "X";
      Print "fourcastnet"; Print "graphcast"; Print "panguweather"],
     Exited 0).
Proof.
  intros w.
  assert ("--models" ∈ ["--models"]) as Hargv by apply list_elem_of_here.
  destruct (models_flag_lists_and_exits w ["--models"] Hargv) as [_ Hmain].
  destruct (Hmain models_only [] eq_refl eq_refl) as [-> _].
  reflexivity.
Defined.

Lemma file_forces_input_witness :
  let w := world_of [] "ai-models"
             ["--file"; "INPUT.dat"; "--input"; "mars"; "X"]
             file_and_input_mars quiet_model ("{}", None) in
  input (namespace_of w file_and_input_mars) = "mars"
  ∧ ∃ cfg,
      _main_resolve w (namespace_of w file_and_input_mars) []
      = ([LoggingBasicConfig "INFO"], Returned tt) ≫= (λ _, run w cfg [])
      ∧ input cfg = "file".
Proof.
  intros w. split; [reflexivity |].
  destruct (file_forces_input w (namespace_of w file_and_input_mars) []
              "INPUT.dat" eq_refl eq_refl)
    as (cfg & Hrun & Hinput & _).
  by exists cfg.
Defined.

Lemma quiet_modes_witness :
  let w := world_of [] "ai-models"
             ["--requests-extra"; "a=b"; "--retrieve-requests"; "X"]
             requests_extra_retrieve quiet_model ("{}", None) in
  Model_print_requests ∈ (main w).1
  ∧ ∀ level, LoggingBasicConfig level ∉ (main w).1.
Proof.
  intros w.
  assert (Model_print_requests ∈ (main w).1) as Hprinted.
  { vm_compute. do 3 apply list_elem_of_further. apply list_elem_of_here. }
  split; [exact Hprinted |].
  destruct (quiet_modes w (namespace_of w requests_extra_retrieve) [])
    as (_ & _ & _ & _ & _ & Hmain).
  apply Hmain. by right.
Defined.

(** ** Where the code departs from the specification *)

(** C3, as the specification has it, fails: a token with two ["="] should
    give the key ["a"] and the value ["b=c"], and a token without ["="]
    should be a usage error; in both cases the stage raises a
    [ValueError]. *)
Lemma metadata_as_specified_fails :
  let w := world_of [] "ai-models" ["--metadata"; "a=b=c"; "X"]
             (metadata_token "a=b=c") quiet_model ("{}", None) in
  let two := namespace_of w (metadata_token "a=b=c") in
  let none := namespace_of w (metadata_token "abc") in
  metadata_by_first_equals ["a=b=c"] ∅ = Some {["a" := "b=c"]}
  ∧ _main_metadata two
    = raise (ValueError
        "dictionary update sequence element #0 has length 3; 2 is required")
  ∧ ¬ metadata_as_specified two
  ∧ metadata_by_first_equals ["abc"] ∅ = None
  ∧ _main_metadata none
    = raise (ValueError
        "dictionary update sequence element #0 has length 1; 2 is required")
  ∧ ¬ metadata_as_specified none.
Proof.
  intros w two none.
  assert (_main_metadata two
          = raise (ValueError
              "dictionary update sequence element #0 has length 3; 2 is required"))
    as Htwo by reflexivity.
  assert (_main_metadata none
          = raise (ValueError
              "dictionary update sequence element #0 has length 1; 2 is required"))
    as Hnone by reflexivity.
  split_and!; [reflexivity | exact Htwo | | reflexivity | exact Hnone |].
  - intros Hspec. unfold metadata_as_specified in Hspec.
    change (default [] (metadata two)) with ["a=b=c"] in Hspec.
    simpl in Hspec. rewrite Htwo in Hspec. discriminate Hspec.
  - intros Hspec. unfold metadata_as_specified in Hspec.
    change (default [] (metadata none)) with ["abc"] in Hspec.
    simpl in Hspec. rewrite Hnone in Hspec.
    by apply not_usage_error_Raised in Hspec.
Qed.


(** ** The model at work on sample inputs *)

Example split_examples :
  Py.split "=" "a=b" = ["a"; "b"]
  ∧ Py.split "=" "a=b=c" = ["a"; "b"; "c"]
  ∧ Py.split "=" "abc" = ["abc"]
  ∧ Py.split "=" "=" = [""; ""]
  ∧ Py.split "=" "" = [""].
Proof. by split_and!. Qed.

Example os_path_join_examples :
  os_path_join "." "X" = "./X"
  ∧ os_path_join "/data/assets/" "X" = "/data/assets/X"
  ∧ os_path_join "assets" "/abs" = "/abs"
  ∧ os_path_join "" "X" = "X".
Proof. by split_and!. Qed.

Example shlex_join_examples :
  shlex.join ["prog"; "--download-assets"; "--only-gpu"; "X"]
  = "prog --download-assets --only-gpu X"
  ∧ shlex.join ["a b"; ""; "it's"]
    = "'a b' '' 'it'" +:+ shlex.dquote +:+ "'" +:+ shlex.dquote +:+ "'s'".
Proof. by split_and!. Qed.

(** [ai-models --models] prints the names in order and exits. *)
Example main_lists_models :
  main (world_of [] "ai-models" ["--models"] models_only quiet_model
          ("{}", None))
  = ([TimerEnter "Total time"; SetEnv "PYTORCH_ENABLE_MPS_FALLBACK" "1";
      Print "X"; Print "fourcastnet"; Print "graphcast"; Print "panguweather";
      TimerExit "Total time"],
     Exited 0).
Proof. reflexivity. Qed.

(** A namespace without the positional and without [--models]: the output
    path cannot be derived. *)
Example resolve_without_positional :
  let w := world_of [] "ai-models" [] models_only quiet_model ("{}", None) in
  _main_resolve w (namespace_of w (command_line [] [] None None)) []
  = ([], Raised (AttributeError "'Namespace' object has no attribute 'model'")).
Proof. reflexivity. Qed.

(** A successful local run with a provenance dump. *)
Example main_dumps_provenance :
  let w := world_of [] "ai-models" ["--dump-provenance"; "p.json"; "X"]
             dump_to_p_json quiet_model ("{ }", None) in
  (main w).2 = Returned tt
  ∧ modes_executed (main w).1 = [LocalRun]
  ∧ files_after (main w).1 ∅ !! "p.json" = Some "{ }".
Proof. by split_and!. Qed.

(** * Further properties of the entry point *)

(** ** [run], case by case *)

Section Cases.

Context (w : World).

Lemma run_without_model (cfg : Config) (u : list string) :
  model cfg = None → run w cfg u = ([], Raised (KeyError "model")).
Proof. intros Hmodel. unfold run, getitem_model. by rewrite Hmodel. Qed.

Lemma run_load_failed (cfg : Config) (u : list string) (name : string)
  (e : exn) :
  model cfg = Some name →
  load_model w name cfg u = inl e →
  run w cfg u = ([LoadModel name cfg u], Raised e).
Proof.
  intros Hmodel Hload. unfold run, getitem_model.
  by rewrite Hmodel, bind_ret_l, Hload.
Qed.

(** The running modes, by the answer of the run. *)
Lemma run_answer_missing (cfg : Config) (u : list string) (name : string)
  (m : Model.t) (msg : string) :
  model cfg = Some name →
  load_model w name cfg u = inr m →
  informational (select_mode cfg) = false →
  answer m cfg u (select_mode cfg) = Some (FileNotFoundError msg) →
  run w cfg u
  = ([LoadModel name cfg u; event_of_mode cfg u (select_mode cfg)],
     Returned tt) ≫= λ _, missing_files w cfg (FileNotFoundError msg).
Proof.
  intros Hmodel Hload Hinfo Hanswer.
  rewrite (run_executes _ _ _ _ _ Hmodel Hload Hinfo), Hanswer.
  unfold call, try_except_FileNotFoundError. simpl.
  pose proof (missing_files_aftermath w cfg (FileNotFoundError msg)) as _.
  unfold missing_files, getitem_model, remediation_command.
  rewrite Hmodel. by destruct (sys_argv w).
Qed.

Lemma run_answer_other (cfg : Config) (u : list string) (name : string)
  (m : Model.t) (e : exn) :
  model cfg = Some name →
  load_model w name cfg u = inr m →
  informational (select_mode cfg) = false →
  answer m cfg u (select_mode cfg) = Some e →
  is_FileNotFoundError e = false →
  run w cfg u
  = ([LoadModel name cfg u; event_of_mode cfg u (select_mode cfg)], Raised e).
Proof.
  intros Hmodel Hload Hinfo Hanswer He.
  rewrite (run_executes _ _ _ _ _ Hmodel Hload Hinfo), Hanswer.
  by destruct e.
Qed.

Lemma run_answer_none (cfg : Config) (u : list string) (name : string)
  (m : Model.t) :
  model cfg = Some name →
  load_model w name cfg u = inr m →
  informational (select_mode cfg) = false →
  answer m cfg u (select_mode cfg) = None →
  run w cfg u
  = ([LoadModel name cfg u; event_of_mode cfg u (select_mode cfg);
      Model_finalise],
     match Model.finalise m with
     | None => Returned tt
     | Some e => Raised e
     end) ≫= λ _,
    when (Py.truthy (dump_provenance cfg))
      (dump_provenance_to w m (default "" (dump_provenance cfg))).
Proof.
  intros Hmodel Hload Hinfo Hanswer.
  rewrite (run_executes _ _ _ _ _ Hmodel Hload Hinfo), Hanswer.
  destruct (Model.finalise m); [done |]. simpl.
  by destruct (when _ _).
Qed.

(** The four ways of the provenance dump. *)
Lemma dump_provenance_to_cases (m : Model.t) (p : string) :
  dump_provenance_to w m p
  = match open_write w p with
    | Some e =>
        ([TimerEnter "Collect provenance information";
          TimerExit "Collect provenance information"], Raised e)
    | None =>
        match Model.provenance m with
        | inl e =>
            ([TimerEnter "Collect provenance information"; OpenWrite p;
              Model_provenance; FileClose p;
              TimerExit "Collect provenance information"], Raised e)
        | inr prov =>
            ([TimerEnter "Collect provenance information"; OpenWrite p;
              Model_provenance; FileWrite p (json_dump w prov).1; FileClose p;
              TimerExit "Collect provenance information"],
             match (json_dump w prov).2 with
             | None => Returned tt
             | Some e => Raised e
             end)
        end
    end.
Proof.
  unfold dump_provenance_to.
  destruct (open_write w p); [done |].
  destruct (Model.provenance m) as [e | prov]; [done |]. simpl.
  by destruct (json_dump w prov) as [text [e |]].
Qed.

End Cases.

(** ** Failures of the collaborators *)

Ltac decide_in_trace :=
  repeat first
    [rewrite elem_of_cons | rewrite elem_of_app | rewrite elem_of_nil];
  intuition (try discriminate; try congruence; eauto).

Lemma dump_provenance_to_no_log (w : World) (m : Model.t) (p : string) :
  existsb is_log_event (dump_provenance_to w m p).1 = false.
Proof.
  rewrite dump_provenance_to_cases.
  by destruct (open_write w p), (Model.provenance m).
Qed.

Lemma dump_provenance_to_no_finalise (w : World) (m : Model.t) (p : string) :
  Model_finalise ∉ (dump_provenance_to w m p).1.
Proof.
  rewrite dump_provenance_to_cases.
  destruct (open_write w p), (Model.provenance m); simpl; decide_in_trace.
Qed.

Lemma missing_files_logs (w : World) (cfg : Config) (e : exn) :
  ∃ t, (missing_files w cfg e).1 = LogException e :: t.
Proof.
  unfold missing_files, getitem_model, remediation_command.
  destruct (model cfg), (sys_argv w); simpl; eauto.
Qed.

(** X1.  A failure of the run, local or remote, that is not a
    [FileNotFoundError] is not caught: the exception leaves [run] as it is,
    right after the failed call; nothing is logged, the model is not
    finalised and no exit status is chosen. *)
Theorem run_failure_propagates (w : World) (cfg : Config) (u : list string)
  (name : string) (m : Model.t) (e : exn) :
  model cfg = Some name →
  load_model w name cfg u = inr m →
  informational (select_mode cfg) = false →
  answer m cfg u (select_mode cfg) = Some e →
  is_FileNotFoundError e = false →
  run w cfg u
  = ([LoadModel name cfg u; event_of_mode cfg u (select_mode cfg)], Raised e)
  ∧ existsb is_log_event (run w cfg u).1 = false
  ∧ Model_finalise ∉ (run w cfg u).1.
Proof.
  intros Hmodel Hload Hinfo Hanswer He.
  rewrite (run_answer_other w _ _ _ _ _ Hmodel Hload Hinfo Hanswer He).
  split_and!; [done | |].
  - simpl. by destruct (select_mode cfg).
  - simpl. destruct (select_mode cfg); simpl; decide_in_trace.
Qed.

(** X2.  The report of missing files belongs to the run alone: with the
    model loaded, something is logged exactly when the mode is a running one
    and the run raised [FileNotFoundError].  The same exception raised by the
    operation of an informational mode, or by the finalisation, leaves [run]
    unreported. *)
Theorem report_only_for_the_run (w : World) (cfg : Config) (u : list string)
  (name : string) (m : Model.t) :
  model cfg = Some name →
  load_model w name cfg u = inr m →
  (existsb is_log_event (run w cfg u).1 = true
   ↔ informational (select_mode cfg) = false
     ∧ ∃ msg, answer m cfg u (select_mode cfg) = Some (FileNotFoundError msg))
  ∧ (∀ e, informational (select_mode cfg) = true →
          answer m cfg u (select_mode cfg) = Some e →
          run w cfg u
          = ([LoadModel name cfg u; event_of_mode cfg u (select_mode cfg)],
             Raised e))
  ∧ (∀ e, informational (select_mode cfg) = false →
          answer m cfg u (select_mode cfg) = None →
          Model.finalise m = Some e →
          run w cfg u
          = ([LoadModel name cfg u; event_of_mode cfg u (select_mode cfg);
              Model_finalise],
             Raised e)).
Proof.
  intros Hmodel Hload. split_and!.
  - destruct (informational (select_mode cfg)) eqn:Hinfo.
    { rewrite (run_informational w _ _ _ _ Hmodel Hload Hinfo). simpl.
      split; [| by intros [? _]].
      by destruct (select_mode cfg). }
    destruct (answer m cfg u (select_mode cfg)) as [e |] eqn:Hanswer.
    + destruct (is_FileNotFoundError e) eqn:He.
      * destruct e; try done.
        rewrite (run_answer_missing w _ _ _ _ _ Hmodel Hload Hinfo Hanswer).
        rewrite bind_Returned. simpl. split; [eauto |]. intros _.
        destruct (missing_files_logs w cfg (FileNotFoundError msg)) as [t ->].
        apply orb_true_r.
      * rewrite (run_answer_other w _ _ _ _ _ Hmodel Hload Hinfo Hanswer He).
        simpl. split; [| intros [_ [msg [= ->]]]; done].
        by destruct (select_mode cfg).
    + rewrite (run_answer_none w _ _ _ _ Hmodel Hload Hinfo Hanswer).
      split; [| by intros [_ [msg [=]]]].
      destruct (Model.finalise m).
      { rewrite bind_Raised. simpl. by destruct (select_mode cfg). }
      rewrite bind_Returned. simpl.
      destruct (Py.truthy (dump_provenance cfg)); simpl.
      * rewrite dump_provenance_to_no_log. by destruct (select_mode cfg).
      * by destruct (select_mode cfg).
  - intros e Hinfo Hanswer.
    by rewrite (run_informational w _ _ _ _ Hmodel Hload Hinfo), Hanswer.
  - intros e Hinfo Hanswer Hfinalise.
    by rewrite (run_answer_none w _ _ _ _ Hmodel Hload Hinfo Hanswer), Hfinalise.
Qed.

(** X3.  The model is finalised exactly when it was run, locally or
    remotely, and the run returned; never in an informational mode, never
    after a failed run. *)
Theorem finalise_after_successful_run (w : World) (cfg : Config)
  (u : list string) (name : string) (m : Model.t) :
  model cfg = Some name →
  load_model w name cfg u = inr m →
  Model_finalise ∈ (run w cfg u).1
  ↔ informational (select_mode cfg) = false
    ∧ answer m cfg u (select_mode cfg) = None.
Proof.
  intros Hmodel Hload.
  destruct (informational (select_mode cfg)) eqn:Hinfo.
  { rewrite (run_informational w _ _ _ _ Hmodel Hload Hinfo). simpl.
    destruct (select_mode cfg); simpl; decide_in_trace. }
  destruct (answer m cfg u (select_mode cfg)) as [e |] eqn:Hanswer.
  - destruct (is_FileNotFoundError e) eqn:He.
    + destruct e; try done.
      rewrite (run_answer_missing w _ _ _ _ _ Hmodel Hload Hinfo Hanswer).
      rewrite bind_Returned. simpl.
      pose proof (missing_files_aftermath w cfg (FileNotFoundError msg)) as Hlog.
      unfold missing_files, getitem_model, remediation_command in *.
      rewrite Hmodel in *.
      destruct (sys_argv w), (select_mode cfg); simpl; decide_in_trace.
    + rewrite (run_answer_other w _ _ _ _ _ Hmodel Hload Hinfo Hanswer He).
      destruct (select_mode cfg); simpl; decide_in_trace.
  - rewrite (run_answer_none w _ _ _ _ Hmodel Hload Hinfo Hanswer).
    split; [done |]. intros _. apply elem_of_bind. left. simpl.
    decide_in_trace.
Qed.

(** X4.  [run] returns, rather than exits or fails, exactly when the whole
    life cycle went through: the model was loaded, the mode is a running one,
    the run and the finalisation returned, and the provenance dump, if one
    is asked for, was written to the end.  An informational mode never
    returns. *)
Theorem run_returns_after_life_cycle (w : World) (cfg : Config)
  (u : list string) :
  (run w cfg u).2 = Returned tt
  ↔ ∃ name m,
      model cfg = Some name
      ∧ load_model w name cfg u = inr m
      ∧ informational (select_mode cfg) = false
      ∧ answer m cfg u (select_mode cfg) = None
      ∧ Model.finalise m = None
      ∧ (Py.truthy (dump_provenance cfg) = false
         ∨ open_write w (default "" (dump_provenance cfg)) = None
           ∧ ∃ prov, Model.provenance m = inr prov
                     ∧ (json_dump w prov).2 = None).
Proof.
  destruct (model cfg) as [name |] eqn:Hmodel.
  2: { rewrite (run_without_model w _ _ Hmodel). split; [done |].
       by intros (? & ? & [=] & _). }
  destruct (load_model w name cfg u) as [e | m] eqn:Hload.
  { rewrite (run_load_failed w _ _ _ _ Hmodel Hload). split; [done |].
    intros (? & ? & [= <-] & Hload' & _). congruence. }
  assert (∀ P : Model.t → Prop,
            (∃ name' m', Some name = Some name'
                         ∧ load_model w name' cfg u = inr m' ∧ P m') ↔ P m)
    as Hpick.
  { intros P. split.
    - intros (? & m' & [= <-] & Hload' & HP). congruence.
    - intros HP. by exists name, m. }
  rewrite Hpick. clear Hpick.
  destruct (informational (select_mode cfg)) eqn:Hinfo.
  { rewrite (run_informational w _ _ _ _ Hmodel Hload Hinfo). simpl.
    split; [by destruct (answer _ _ _ _) | by intros [? _]]. }
  destruct (answer m cfg u (select_mode cfg)) as [e |] eqn:Hanswer.
  - split; [| by intros (_ & [=] & _)].
    destruct (is_FileNotFoundError e) eqn:He.
    + destruct e; try done.
      rewrite (run_answer_missing w _ _ _ _ _ Hmodel Hload Hinfo Hanswer).
      rewrite bind_Returned. simpl.
      unfold missing_files, getitem_model, remediation_command.
      rewrite Hmodel. by destruct (sys_argv w).
    + by rewrite (run_answer_other w _ _ _ _ _ Hmodel Hload Hinfo Hanswer He).
  - rewrite (run_answer_none w _ _ _ _ Hmodel Hload Hinfo Hanswer).
    destruct (Model.finalise m) as [e |].
    { rewrite bind_Raised. simpl. split; [done | by intros (_ & _ & [=] & _)]. }
    rewrite bind_Returned. simpl.
    destruct (Py.truthy (dump_provenance cfg)); simpl.
    2: { split; [intros _; split_and!; auto | done]. }
    rewrite dump_provenance_to_cases.
    destruct (open_write w _) as [e |]; simpl.
    { split; [done | by intros (_ & _ & _ & [[=] | [[=] _]])]. }
    destruct (Model.provenance m) as [e | prov]; simpl.
    { split; [done | by intros (_ & _ & _ & [[=] | [_ [? [[=] _]]]])]. }
    destruct (json_dump w prov).2 eqn:Hdump.
    + split; [done |].
      intros (_ & _ & _ & [[=] | [_ [prov' [[= <-] Hnone]]]]). congruence.
    + split; [| done]. intros _. split_and!; eauto.
Qed.

(** ** The provenance file *)

Lemma files_after_app (t1 t2 : list event) (files : gmap string string) :
  files_after (t1 ++ t2) files = files_after t2 (files_after t1 files).
Proof. apply foldl_app. Qed.

Lemma files_after_no_file (t : list event) (files : gmap string string) :
  Forall (λ e, file_of_event e = None) t → files_after t files = files.
Proof.
  intros Ht. revert files. induction Ht as [| e t He _ IH]; [done |].
  intros files. unfold files_after in *. simpl. rewrite IH. by destruct e.
Qed.

Lemma file_of_event_of_mode (cfg : Config) (u : list string)
  (mode : ExecutionMode) :
  file_of_event (event_of_mode cfg u mode) = None.
Proof. by destruct mode. Qed.

(** What a provenance dump does to the files. *)
Lemma files_after_dump (w : World) (m : Model.t) (p : string)
  (files : gmap string string) :
  files_after (dump_provenance_to w m p).1 files
  = match open_write w p with
    | Some _ => files
    | None =>
        match Model.provenance m with
        | inl _ => <[p := ""]> files
        | inr prov => <[p := (json_dump w prov).1]> files
        end
    end.
Proof.
  rewrite dump_provenance_to_cases.
  destruct (open_write w p); [done |].
  destruct (Model.provenance m) as [e | prov]; [done |].
  unfold files_after. simpl. by rewrite alter_insert_eq.
Qed.

(** X5.  A provenance dump that goes through leaves at the configured path
    exactly the text [json.dump] wrote, in place of whatever the file held,
    and changes no other file; it happens after the finalisation, and the
    file is closed before [run] returns. *)
Theorem provenance_dump_written (w : World) (cfg : Config) (u : list string)
  (name : string) (m : Model.t) (p : string) (prov : json_value)
  (text : string) :
  model cfg = Some name →
  load_model w name cfg u = inr m →
  informational (select_mode cfg) = false →
  answer m cfg u (select_mode cfg) = None →
  Model.finalise m = None →
  dump_provenance cfg = Some p →
  p ≠ "" →
  open_write w p = None →
  Model.provenance m = inr prov →
  json_dump w prov = (text, None) →
  run w cfg u
  = ([LoadModel name cfg u; event_of_mode cfg u (select_mode cfg);
      Model_finalise; TimerEnter "Collect provenance information";
      OpenWrite p; Model_provenance; FileWrite p text; FileClose p;
      TimerExit "Collect provenance information"],
     Returned tt)
  ∧ ∀ files, files_after (run w cfg u).1 files = <[p := text]> files.
Proof.
  intros Hmodel Hload Hinfo Hanswer Hfinalise Hdump Hp Hopen Hprov Hjson.
  assert (Py.truthy (dump_provenance cfg) = true) as Htruthy.
  { rewrite Hdump. simpl. by apply negb_true_iff, String.eqb_neq. }
  rewrite (run_answer_none w _ _ _ _ Hmodel Hload Hinfo Hanswer).
  rewrite Hfinalise, Htruthy, Hdump, bind_Returned.
  change (default "" (Some p)) with p. cbn [when].
  split.
  - rewrite dump_provenance_to_cases, Hopen, Hprov, Hjson. done.
  - intros files. cbn [fst]. rewrite files_after_app, files_after_dump.
    rewrite Hopen, Hprov, Hjson. cbn [fst]. f_equal.
    apply files_after_no_file. repeat constructor.
    apply file_of_event_of_mode.
Qed.

(** X6.  When the provenance file cannot be opened, the exception of [open]
    leaves [run]; the model is not asked for its provenance and no file is
    changed. *)
Theorem provenance_open_failure (w : World) (cfg : Config) (u : list string)
  (name : string) (m : Model.t) (p : string) (e : exn) :
  model cfg = Some name →
  load_model w name cfg u = inr m →
  informational (select_mode cfg) = false →
  answer m cfg u (select_mode cfg) = None →
  Model.finalise m = None →
  dump_provenance cfg = Some p →
  p ≠ "" →
  open_write w p = Some e →
  run w cfg u
  = ([LoadModel name cfg u; event_of_mode cfg u (select_mode cfg);
      Model_finalise; TimerEnter "Collect provenance information";
      TimerExit "Collect provenance information"],
     Raised e)
  ∧ ∀ files, files_after (run w cfg u).1 files = files.
Proof.
  intros Hmodel Hload Hinfo Hanswer Hfinalise Hdump Hp Hopen.
  assert (Py.truthy (dump_provenance cfg) = true) as Htruthy.
  { rewrite Hdump. simpl. by apply negb_true_iff, String.eqb_neq. }
  rewrite (run_answer_none w _ _ _ _ Hmodel Hload Hinfo Hanswer).
  rewrite Hfinalise, Htruthy, Hdump, bind_Returned.
  change (default "" (Some p)) with p. cbn [when].
  rewrite dump_provenance_to_cases, Hopen. split; [done |].
  intros files. apply files_after_no_file. repeat constructor.
  apply file_of_event_of_mode.
Qed.


(** ** Resolution as a whole *)

Lemma bind_nil_Returned {A B} (k : A → M B) (a : A) :
  ([], Returned a) ≫= k = k a.
Proof. apply (bind_ret_l k a). Qed.

(** Resolution ends in one of five ways. *)
Lemma _main_resolve_outcomes (w : World) (args : Args) (u : list string) :
  (models args = true
   ∧ _main_resolve w args u
     = (Print <$> Py.sorted (available_models w), Exited 0))
  ∨ (models args = false ∧ model args = None
     ∧ (path args = None ∨ Py.truthy_flag (assets_sub_directory args) = true)
     ∧ ∃ msg, _main_resolve w args u = ([], Raised (AttributeError msg)))
  ∨ (models args = false
     ∧ ∃ msg, _main_resolve w args u
              = (logging_events args, Raised (ValueError msg)))
  ∨ (models args = false
     ∧ ∃ msg, _main_resolve w args u
              = (logging_events args ++ [ParserError msg],
                 Exited usage_status))
  ∨ (models args = false
     ∧ ∃ cfg, model cfg = model args
              ∧ _main_resolve w args u
                = (logging_events args, Returned tt) ≫= λ _, run w cfg u).
Proof.
  destruct (models args) eqn:Hmodels.
  { left. split; [done |]. unfold _main_resolve.
    by rewrite (_main_models_true w _ Hmodels), bind_Exited. }
  right. unfold _main_resolve.
  rewrite (_main_models_false w _ Hmodels), bind_ret_l.
  assert ((∃ paths, _main_paths args = ([], Returned paths))
          ∨ (model args = None
             ∧ (path args = None
                ∨ Py.truthy_flag (assets_sub_directory args) = true)
             ∧ ∃ msg, _main_paths args = ([], Raised (AttributeError msg))))
    as [[[assets' path'] ->] | (Hmodel & Hwhy & msg & ->)].
  { unfold _main_paths, getattr_model.
    destruct (Py.truthy_flag (assets_sub_directory args)),
      (model args) as [name |], (path args) as [p |];
      first [ by left; eexists
            | right; split; [done |]; split; [auto |]; by eexists ]. }
  2: { left. rewrite bind_Raised. eauto 10. }
  right. rewrite bind_nil_Returned. cbv beta iota.
  rewrite _main_logging_events, _main_metadata_dict.
  destruct (dict _) as [e | d] eqn:Hdict.
  { left. split; [done |].
    destruct (forallb one_equals (default [] (metadata args))) eqn:Htokens.
    - apply dict_one_equals in Htokens as (? & ? & _). congruence.
    - apply dict_not_one_equals in Htokens as (msg & Hmsg).
      exists msg. rewrite bind_Returned, bind_Raised. simpl.
      rewrite app_nil_r. congruence. }
  right. rewrite _main_checks_ok.
  destruct (requests_extra_ok args).
  - destruct (remote_ok args).
    + right. split; [done |]. eexists.
      split; [| by rewrite !bind_nil_Returned]. done.
    + left. split; [done |]. eexists.
      by rewrite bind_nil_Returned, bind_Returned.
  - left. split; [done |]. eexists.
    by rewrite bind_nil_Returned, bind_Returned.
Qed.

(** The whole process, around the parse. *)
Lemma main_unfold (w : World) :
  main w
  = let argv := tail (sys_argv w) in
    let body :=
      match parse_known_args w (declares_model argv) argv with
      | UsageError msg => ([ParserError msg], Exited usage_status)
      | Help text => ([Print text], Exited 0)
      | Parsed supplied u => _main_resolve w (namespace_of w supplied) u
      end in
    (TimerEnter "Total time" :: SetEnv "PYTORCH_ENABLE_MPS_FALLBACK" "1"
     :: body.1 ++ [TimerExit "Total time"], body.2).
Proof.
  unfold main, with_Timer, _main. cbv zeta.
  destruct (parse_known_args w _ _) as [msg | text | supplied u]; try done.
  unfold emit. rewrite !bind_Returned. simpl.
  by destruct (_main_resolve w (namespace_of w supplied) u).
Qed.

(** How [run] can exit. *)
Lemma run_exit_status (w : World) (cfg : Config) (u : list string) (s : Z) :
  (run w cfg u).2 = Exited s →
  s = 0%Z ∨ (s = 1%Z ∧ LogError "Rerun the command as:" ∈ (run w cfg u).1).
Proof.
  destruct (model cfg) as [name |] eqn:Hmodel.
  2: { by rewrite (run_without_model w _ _ Hmodel). }
  destruct (load_model w name cfg u) as [e | m] eqn:Hload.
  { by rewrite (run_load_failed w _ _ _ _ Hmodel Hload). }
  destruct (informational (select_mode cfg)) eqn:Hinfo.
  { rewrite (run_informational w _ _ _ _ Hmodel Hload Hinfo). simpl.
    destruct (answer _ _ _ _); [done |]. intros [= <-]. by left. }
  destruct (answer m cfg u (select_mode cfg)) as [e |] eqn:Hanswer.
  - destruct (is_FileNotFoundError e) eqn:He.
    + destruct e; try done.
      rewrite (run_answer_missing w _ _ _ _ _ Hmodel Hload Hinfo Hanswer).
      rewrite bind_Returned. simpl.
      unfold missing_files, getitem_model, remediation_command.
      rewrite Hmodel. destruct (sys_argv w); simpl; [done |].
      intros [= <-]. right. split; [done |]. decide_in_trace.
    + by rewrite (run_answer_other w _ _ _ _ _ Hmodel Hload Hinfo Hanswer He).
  - rewrite (run_answer_none w _ _ _ _ Hmodel Hload Hinfo Hanswer).
    destruct (Model.finalise m); [done |].
    rewrite bind_Returned. simpl.
    destruct (Py.truthy (dump_provenance cfg)); [| done]. simpl.
    rewrite dump_provenance_to_cases.
    destruct (open_write w _); [done |].
    destruct (Model.provenance m) as [? | prov]; [done |]. simpl.
    by destruct (json_dump w prov).2.
Qed.

Lemma run_no_parser_error (w : World) (cfg : Config) (u : list string)
  (msg : string) :
  ParserError msg ∉ (run w cfg u).1.
Proof.
  intros He.
  destruct (run_trace_any w cfg u)
    as [Ht | [[name Ht] | (name & tail & Ht & Htail)]]; rewrite Ht in He.
  - by apply elem_of_nil in He.
  - by apply list_elem_of_singleton in He.
  - apply elem_of_cons in He as [[=] | He].
    apply elem_of_cons in He as [He | He].
    + by destruct (select_mode cfg).
    + rewrite Forall_forall in Htail. by specialize (Htail _ He).
Qed.

(** X8.  The process chooses its exit status in three places only: 0 after
    a listing, the help or an informational mode; 1 after the report of
    missing files; 2 after a usage error.  Conversely a usage error always
    ends the process with status 2. *)
Theorem exit_statuses (w : World) :
  (∀ s, (main w).2 = Exited s →
        s = 0%Z
        ∨ (s = 1%Z ∧ LogError "Rerun the command as:" ∈ (main w).1)
        ∨ (s = 2%Z ∧ ∃ msg, ParserError msg ∈ (main w).1))
  ∧ (∀ msg, ParserError msg ∈ (main w).1 → (main w).2 = Exited 2).
Proof.
  rewrite main_unfold. cbv zeta.
  destruct (parse_known_args w _ _) as [msg | text | supplied u]; cbn [fst snd].
  - split.
    + intros s [= <-]. right; right. split; [done |]. exists msg.
      simpl. decide_in_trace.
    + done.
  - split.
    + intros s [= <-]. by left.
    + intros msg. simpl. decide_in_trace.
  - set (args := namespace_of w supplied).
    destruct (_main_resolve_outcomes w args u)
      as [[_ ->] | [(_ & _ & _ & msg & ->) | [(_ & msg & ->)
          | [(_ & msg & ->) | (_ & cfg & _ & ->)]]]]; cbn [fst snd].
    + split; [intros s [= <-]; by left |].
      intros msg. rewrite !elem_of_cons, elem_of_app, list_elem_of_fmap.
      rewrite list_elem_of_singleton.
      intros [[=] | [[=] | [(? & [=] & _) | [=]]]].
    + split; [done |]. intros msg'. simpl. decide_in_trace.
    + split; [done |]. intros msg'.
      rewrite !elem_of_cons, elem_of_app, list_elem_of_singleton.
      unfold logging_events. destruct (_ && _); decide_in_trace.
    + split; [| done]. intros s [= <-]. right; right. split; [done |].
      exists msg. rewrite !elem_of_cons, !elem_of_app, list_elem_of_singleton.
      eauto 10.
    + rewrite bind_Returned. cbn [fst snd].
      pose proof (run_exit_status w cfg u) as Hexit.
      pose proof (run_no_parser_error w cfg u) as Hnone.
      destruct (run w cfg u) as [t r]. cbn [fst snd] in *. split.
      * intros s Hs. destruct (Hexit s Hs) as [-> | [-> Hlog]]; [by left |].
        right; left. split; [done |].
        rewrite !elem_of_cons, !elem_of_app. eauto 10.
      * intros msg.
        rewrite !elem_of_cons, !elem_of_app, list_elem_of_singleton.
        unfold logging_events.
        intros [[=] | [[=] | [[Hin | Hin] | [=]]]].
        -- destruct (_ && _); revert Hin; decide_in_trace.
        -- by apply Hnone in Hin.
Qed.

(** ** What resolution hands to [run] *)

Lemma assets_namespace_of (w : World) (c : CommandLine) :
  assets (namespace_of w c)
  = default (default "." (environ w !! "AI_MODELS_ASSETS")) (assets c).
Proof.
  unfold namespace_of, environ'. cbn [assets].
  by rewrite lookup_insert_ne.
Qed.

(** X9.  When resolution reaches [run], the assets directory of the
    configuration is the one of [--assets], else of [AI_MODELS_ASSETS], else
    ["."], joined with the model name when [--assets-sub-directory] is set;
    the output path is the one of [--path], else the model name followed by
    [.grib]; the input kind is ["file"] with [--file], else the one of
    [--input], else ["mars"]. *)
Theorem resolved_paths (w : World) (c : CommandLine) (u : list string) :
  resolves (namespace_of w c) = true →
  ∃ name cfg,
    model c = Some name
    ∧ _main_resolve w (namespace_of w c) u
      = (logging_events (namespace_of w c), Returned tt) ≫= (λ _, run w cfg u)
    ∧ (let base :=
         match assets c with
         | Some directory => directory
         | None => default "." (environ w !! "AI_MODELS_ASSETS")
         end in
       assets cfg
       = match assets_sub_directory c with
         | Some true => os_path_join base name
         | _ => base
         end)
    ∧ path cfg
      = Some match path c with
             | Some file_name => file_name
             | None => name +:+ ".grib"
             end
    ∧ input cfg
      = match file c, input c with
        | Some _, _ => "file"
        | None, Some kind => kind
        | None, None => "mars"
        end.
Proof.
  intros Hresolves.
  destruct (resolves_run w _ u Hresolves) as (name & d & Hmodel & _ & _ & Hrun).
  exists name, (resolved_config (namespace_of w c) name d).
  split_and!; [done | done | | |].
  - cbv zeta. cbn [resolved_config vars assets]. rewrite assets_namespace_of.
    change (assets_sub_directory (namespace_of w c))
      with (assets_sub_directory c).
    by destruct (assets_sub_directory c) as [[] |], (assets c).
  - cbn [resolved_config vars path].
    change (path (namespace_of w c)) with (path c). by destruct (path c).
  - cbn [resolved_config vars input]. unfold _main_input.
    change (file (namespace_of w c)) with (file c).
    change (input (namespace_of w c)) with (default "mars" (input c)).
    by destruct (file c), (input c).
Qed.

(** X10.  A namespace without the MODEL positional and without [--models]
    never gets a model loaded: resolution fails on [args.model] when it
    needs the name for a path, and otherwise ends, at the latest, on
    [cfg["model"]] at the start of [run]. *)
Theorem no_model_name_no_load (w : World) (args : Args) (u : list string) :
  models args = false →
  model args = None →
  Forall (λ e, is_model_event e = false) (_main_resolve w args u).1
  ∧ (_main_resolve w args u).2 ≠ Returned tt
  ∧ (path args = None ∨ Py.truthy_flag (assets_sub_directory args) = true →
     ∃ msg, _main_resolve w args u = ([], Raised (AttributeError msg)))
  ∧ (is_Some (path args) →
     Py.truthy_flag (assets_sub_directory args) = false →
     forallb one_equals (default [] (metadata args)) = true →
     requests_extra_ok args = true →
     remote_ok args = true →
     _main_resolve w args u = (logging_events args, Raised (KeyError "model"))).
Proof.
  intros Hmodels Hmodel.
  assert (Forall (λ e, is_model_event e = false) (logging_events args))
    as Hlogging.
  { unfold logging_events. destruct (_ && _); by repeat constructor. }
  split_and!.
  - destruct (_main_resolve_outcomes w args u)
      as [[? _] | [(_ & _ & _ & msg & ->) | [(_ & msg & ->)
          | [(_ & msg & ->) | (_ & cfg & Hcfg & ->)]]]]; cbn [fst];
      [congruence | done | done | |].
    + apply Forall_app. split; [done | by repeat constructor].
    + rewrite Hmodel in Hcfg. rewrite (run_without_model w _ _ Hcfg).
      rewrite bind_Returned. simpl. by rewrite app_nil_r.
  - destruct (_main_resolve_outcomes w args u)
      as [[? _] | [(_ & _ & _ & msg & ->) | [(_ & msg & ->)
          | [(_ & msg & ->) | (_ & cfg & Hcfg & ->)]]]]; cbn [snd];
      [congruence | done | done | done |].
    rewrite Hmodel in Hcfg. by rewrite (run_without_model w _ _ Hcfg).
  - intros Hwhy. unfold _main_resolve.
    rewrite (_main_models_false w _ Hmodels), bind_ret_l.
    unfold _main_paths, getattr_model. rewrite Hmodel.
    destruct Hwhy as [Hwhy | Hwhy]; rewrite Hwhy;
      [destruct (Py.truthy_flag (assets_sub_directory args)) |]; by eexists.
  - intros [p Hpath] Hflag Htokens Hextra Hremote.
    destruct (dict_one_equals _ Htokens) as (d & Hdict & _).
    unfold _main_resolve.
    rewrite (_main_models_false w _ Hmodels), bind_ret_l.
    unfold _main_paths. rewrite Hflag, Hpath, !bind_ret_l.
    rewrite _main_logging_events, _main_metadata_dict, Hdict.
    rewrite _main_checks_ok, Hextra, Hremote.
    rewrite !bind_nil_Returned, run_without_model by done.
    rewrite bind_Returned. simpl. by rewrite app_nil_r.
Qed.

Lemma run_load_event (w : World) (cfg cfg' : Config) (u u' : list string)
  (name : string) :
  LoadModel name cfg' u' ∈ (run w cfg u).1 →
  cfg' = cfg ∧ u' = u ∧ model cfg = Some name.
Proof.
  intros He. destruct (model cfg) as [name' |] eqn:Hmodel.
  2: { rewrite (run_without_model w _ _ Hmodel) in He.
       by apply elem_of_nil in He. }
  destruct (run_loads_first w cfg u name' Hmodel) as [t Ht].
  destruct (run_trace_any w cfg u)
    as [Hnil | [[name'' Hone] | (name'' & tail & Htwo & Htail)]].
  - congruence.
  - rewrite Hone in He. apply list_elem_of_singleton in He.
    rewrite Hone in Ht. by simplify_eq.
  - rewrite Htwo in He, Ht.
    apply elem_of_cons in He as [He | He]; [by simplify_eq |].
    apply elem_of_cons in He as [He | He].
    + by destruct (select_mode cfg).
    + rewrite Forall_forall in Htail. by specialize (Htail _ He).
Qed.

Lemma run_remote_event (w : World) (cfg cfg' : Config) (u u' : list string) :
  Model_remote cfg' u' ∈ (run w cfg u).1 →
  cfg' = cfg ∧ u' = u ∧ is_Some (remote_url cfg).
Proof.
  intros He.
  assert (select_mode cfg = RemoteRun) as Hmode.
  { symmetry. by apply (run_event_mode w cfg u (Model_remote cfg' u')). }
  assert (is_Some (remote_url cfg)) as Hurl.
  { rewrite select_mode_cases in Hmode.
    destruct (fields cfg); [done |]. destruct (_ || _); [done |].
    destruct (assets_list cfg); [done |].
    destruct (remote_url cfg); [by eexists | done]. }
  destruct (run_trace_any w cfg u)
    as [Hnil | [[name Hone] | (name & tail & Htwo & Htail)]].
  - rewrite Hnil in He. by apply elem_of_nil in He.
  - rewrite Hone in He. by apply list_elem_of_singleton in He.
  - rewrite Htwo, Hmode in He.
    apply elem_of_cons in He as [[=] | He].
    apply elem_of_cons in He as [He | He]; [by simplify_eq/= |].
    rewrite Forall_forall in Htail. by specialize (Htail _ He).
Qed.

(** X11.  What the model is loaded with is what resolution produced and
    what the parser left over: every call of [load_model] in a process
    carries the name of the MODEL positional, the resolved configuration and
    the unknown tokens of [parse_known_args]; a remote run receives that same
    configuration and those same tokens. *)
Theorem model_receives_resolved_config (w : World) (name : string)
  (cfg : Config) (a : list string) :
  let argv := tail (sys_argv w) in
  (LoadModel name cfg a ∈ (main w).1 →
   ∃ supplied d,
     parse_known_args w (declares_model argv) argv = Parsed supplied a
     ∧ model supplied = Some name
     ∧ dict (map (Py.split "=") (default [] (metadata supplied))) = inr d
     ∧ cfg = resolved_config (namespace_of w supplied) name d)
  ∧ (Model_remote cfg a ∈ (main w).1 →
     ∃ name', LoadModel name' cfg a ∈ (main w).1).
Proof.
  intros argv.
  assert (∀ e, is_model_event e = true → e ∈ (main w).1 →
               ∃ supplied u name' d,
                 parse_known_args w (declares_model argv) argv
                 = Parsed supplied u
                 ∧ model supplied = Some name'
                 ∧ dict (map (Py.split "=") (default [] (metadata supplied)))
                   = inr d
                 ∧ e ∈ (run w (resolved_config (namespace_of w supplied)
                                 name' d) u).1
                 ∧ ∀ e', e' ∈ (run w (resolved_config (namespace_of w supplied)
                                       name' d) u).1 →
                         e' ∈ (main w).1) as Hfrom_run.
  { intros e Hkind He. rewrite main_unfold in *. fold argv in He |- *.
    cbv zeta in *.
    destruct (parse_known_args w _ _) as [msg | text | supplied u];
      cbn [fst snd] in *.
    { revert He. destruct e; try done; decide_in_trace. }
    { revert He. destruct e; try done; decide_in_trace. }
    set (args := namespace_of w supplied) in *.
    assert (e ∈ (_main_resolve w args u).1) as He'.
    { revert He. rewrite !elem_of_cons, elem_of_app, list_elem_of_singleton.
      intros [-> | [-> | [? | ->]]]; done. }
    assert (resolves args = true) as Hresolves.
    { destruct (_main_resolve_event w args u e He')
        as [[p ->] | [[msg ->] | [[_ Hlog] | Hrun]]]; try done.
      - unfold logging_events in Hlog.
        destruct (_ && _);
          [apply list_elem_of_singleton in Hlog as -> | apply elem_of_nil in Hlog];
          done.
      - destruct Hrun as (Hmodels & Hextra & Hremote & ? & ? & d & Hdict & Hrun).
        unfold resolves. rewrite Hmodels, Hextra, Hremote, !andb_true_r. simpl.
        apply andb_true_intro. split.
        + apply bool_decide_eq_true.
          destruct (model args) as [n |] eqn:Hn; [by eexists |].
          rewrite run_without_model in Hrun by done.
          by apply elem_of_nil in Hrun.
        + destruct (forallb one_equals (default [] (metadata args)))
            eqn:Htokens; [done |].
          apply dict_not_one_equals in Htokens as [msg Hmsg]. congruence. }
    destruct (resolves_run w args u Hresolves)
      as (name' & d & Hmodel & Hdict & _ & Hresolve).
    exists supplied, u, name', d. split_and!; try done.
    - rewrite Hresolve in He'.
      apply elem_of_bind in He' as [Hlog | (_ & _ & Hrun)]; [| done].
      simpl in Hlog. unfold logging_events in Hlog.
      destruct (_ && _);
        [apply list_elem_of_singleton in Hlog as -> | apply elem_of_nil in Hlog];
        done.
    - intros e' He''. rewrite Hresolve.
      rewrite !elem_of_cons, elem_of_app. right; right; left.
      apply elem_of_bind. right. by exists tt. }
  split.
  - intros He.
    destruct (Hfrom_run (LoadModel name cfg a) eq_refl He)
      as (supplied & u & name' & d & Hparse & Hmodel & Hdict & Hrun & _).
    apply run_load_event in Hrun as (-> & -> & Hname).
    assert (name' = name) as -> by (simpl in Hname; congruence).
    by exists supplied, d.
  - intros He.
    destruct (Hfrom_run (Model_remote cfg a) eq_refl He)
      as (supplied & u & name' & d & Hparse & Hmodel & Hdict & Hrun & Hback).
    apply run_remote_event in Hrun as (-> & -> & _).
    exists name'. apply Hback.
    destruct (run_loads_first w (resolved_config (namespace_of w supplied)
                                   name' d) u name') as [t ->]; [done |].
    apply list_elem_of_here.
Qed.

(** ** The metadata dictionary *)

Lemma cut_at_first_app (sep : ascii) (k v : string) :
  Py.count sep k = 0 → cut_at_first sep (k +:+ String sep v) = Some (k, v).
Proof.
  induction k as [| c k IH]; simpl.
  - by rewrite Ascii.eqb_refl.
  - destruct (Ascii.eqb c sep); [done |]. intros Hk. by rewrite IH.
Qed.

(** Keys that no token names stay as they were. *)
Lemma metadata_by_first_equals_other (tokens : list string)
  (d0 d : gmap string string) (k : string) :
  metadata_by_first_equals tokens d0 = Some d →
  Forall (λ kv, key_of kv ≠ Some k) tokens →
  d !! k = d0 !! k.
Proof.
  revert d0. induction tokens as [| kv tokens IH]; intros d0; simpl.
  - by intros [= ->].
  - intros Hd [Hkv Htokens]%Forall_cons. unfold key_of in Hkv.
    destruct (cut_at_first "=" kv) as [[k' v'] |]; [| done].
    rewrite (IH _ Hd Htokens). apply lookup_insert_ne.
    intros ->. by apply Hkv.
Qed.

(** The last token that names a key decides its value. *)
Lemma metadata_by_first_equals_last (before after : list string)
  (kv k v : string) (d0 d : gmap string string) :
  metadata_by_first_equals (before ++ kv :: after) d0 = Some d →
  cut_at_first "=" kv = Some (k, v) →
  Forall (λ kv', key_of kv' ≠ Some k) after →
  d !! k = Some v.
Proof.
  revert d0. induction before as [| kv' before IH]; intros d0; simpl.
  - intros Hd Hkv Hafter. rewrite Hkv in Hd.
    rewrite (metadata_by_first_equals_other _ _ _ _ Hd Hafter).
    apply lookup_insert_eq.
  - destruct (cut_at_first "=" kv') as [[k' v'] |]; [| done]. apply IH.
Qed.

(** X12.  Among the [--metadata] tokens, the last one that names a key
    decides its value: in the dictionary built from well-formed tokens, the
    key of a token [k=v] holds [v] when no later token has the key [k], and a
    key that no token names is absent. *)
Theorem metadata_last_token_wins (args : Args) :
  forallb one_equals (default [] (metadata args)) = true →
  ∃ d,
    dict (map (Py.split "=") (default [] (metadata args))) = inr d
    ∧ _main_metadata args = ret (_main_dedicated args d)
    ∧ (∀ before after k v,
         default [] (metadata args) = before ++ (k +:+ "=" +:+ v) :: after →
         Py.count "=" k = 0 →
         Forall (λ kv, key_of kv ≠ Some k) after →
         d !! k = Some v)
    ∧ (∀ k, Forall (λ kv, key_of kv ≠ Some k) (default [] (metadata args)) →
            d !! k = None).
Proof.
  intros Htokens. destruct (dict_one_equals _ Htokens) as (d & Hdict & Hspec).
  exists d. split_and!; [done | by rewrite _main_metadata_dict, Hdict | |].
  - intros before after k v Hsplit Hk Hafter. rewrite Hsplit in Hspec.
    apply (metadata_by_first_equals_last _ _ _ _ _ _ _ Hspec); [| done].
    by apply cut_at_first_app.
  - intros k Hnone.
    by rewrite (metadata_by_first_equals_other _ _ _ _ Hspec Hnone).
Qed.

(** ** Logging *)

Lemma filter_logging_config_none (t : list event) :
  (∀ e, e ∈ t → is_logging_config e = false) →
  List.filter is_logging_config t = [].
Proof.
  induction t as [| e t IH]; [done |]. intros Ht. simpl.
  rewrite (Ht e) by apply list_elem_of_here.
  apply IH. intros e' He'. apply Ht. by apply list_elem_of_further.
Qed.

(** X13.  Logging is configured at most once in a resolution, and then at
    the level [DEBUG] when [--debug] is set and at [INFO] otherwise. *)
Theorem logging_configured_once (w : World) (args : Args) (u : list string) :
  List.filter is_logging_config (_main_resolve w args u).1 = []
  ∨ List.filter is_logging_config (_main_resolve w args u).1
    = [LoggingBasicConfig (if debug args then "DEBUG" else "INFO")].
Proof.
  assert (List.filter is_logging_config (logging_events args) = []
          ∨ List.filter is_logging_config (logging_events args)
            = [LoggingBasicConfig (if debug args then "DEBUG" else "INFO")])
    as Hlogging.
  { unfold logging_events. destruct (_ && _); [by right | by left]. }
  destruct (_main_resolve_outcomes w args u)
    as [[_ ->] | [(_ & _ & _ & msg & ->) | [(_ & msg & ->)
        | [(_ & msg & ->) | (_ & cfg & _ & ->)]]]]; cbn [fst].
  - left. apply filter_logging_config_none.
    by intros e (p & -> & _)%list_elem_of_fmap.
  - by left.
  - done.
  - rewrite List.filter_app. simpl. by rewrite app_nil_r.
  - rewrite bind_Returned. cbn [fst]. rewrite List.filter_app.
    rewrite (filter_logging_config_none (run w cfg u).1), app_nil_r; [done |].
    intros e. apply run_no_logging_config.
Qed.

(** ** The remote run *)


(** ** The command to rerun *)

Lemma string_app_cons (x : ascii) (a b : string) :
  String x a +:+ b = String x (a +:+ b).
Proof. reflexivity. Qed.

Lemma string_app_assoc (a b c : string) : (a +:+ b) +:+ c = a +:+ (b +:+ c).
Proof.
  induction a as [| x a IH]; [done |]. rewrite !string_app_cons. by f_equal.
Qed.

Lemma string_app_nil_r (a : string) : a +:+ "" = a.
Proof.
  induction a as [| x a IH]; [done |]. rewrite string_app_cons. by f_equal.
Qed.

(** A safe character is neither a space nor a quote. *)
Lemma safe_char_ordinary (c : ascii) :
  shlex.safe_char c = true →
  Ascii.eqb c " " = false ∧ Ascii.eqb c "'" = false
  ∧ Ascii.eqb c (ascii_of_N 34) = false.
Proof.
  intros Hsafe. split_and!; apply Ascii.eqb_neq; intros ->; done.
Qed.

(** Reading a plain stretch outside quotes adds it to the current word. *)
Lemma read_words_plain (word rest : string) (current : option string) :
  shlex.find_unsafe word = false →
  read_words Unquoted current (word +:+ rest)
  = read_words Unquoted
      (if String.eqb word "" then current
       else Some (default "" current +:+ word))
      rest.
Proof.
  revert current. induction word as [| c word IH]; intros current; [done |].
  intros [Hc Hword]%orb_false_elim. apply negb_false_iff in Hc.
  destruct (safe_char_ordinary c Hc) as (Hspace & Hsingle & Hdouble).
  rewrite string_app_cons. simpl. simpl in Hdouble.
  rewrite Hspace, Hsingle, Hdouble, (IH _ Hword). unfold extend.
  change (String.eqb (String c word) "") with false. cbn iota.
  destruct word as [| c' word]; [done |].
  change (String.eqb (String c' word) "") with false. cbn iota.
  cbn [default from_option id]. by rewrite string_app_assoc.
Qed.

(** Reading a stretch in single quotes, as [quote] writes it. *)
Lemma read_words_single (word rest current : string) :
  read_words Single (Some current)
    (Py.replace "'" shlex.escaped_squote word +:+ rest)
  = read_words Single (Some (current +:+ word)) rest.
Proof.
  revert current. induction word as [| c word IH]; intros current.
  - by rewrite string_app_nil_r.
  - cbn [Py.replace]. rewrite string_app_assoc.
    destruct (Ascii.eqb c "'") eqn:Hc.
    + apply Ascii.eqb_eq in Hc as ->.
      change (shlex.escaped_squote
              +:+ Py.replace "'" shlex.escaped_squote word +:+ rest)
        with (String "'" (String (ascii_of_N 34) (String "'"
                (String (ascii_of_N 34) (String "'"
                   (Py.replace "'" shlex.escaped_squote word +:+ rest)))))).
      simpl. rewrite (IH (current +:+ "'")). by rewrite string_app_assoc.
    + rewrite string_app_cons. simpl. rewrite Hc. simpl.
      change ("" +:+ Py.replace "'" shlex.escaped_squote word +:+ rest)
        with (Py.replace "'" shlex.escaped_squote word +:+ rest).
      change (extend (Some current) c) with (Some (current +:+ String c "")).
      rewrite (IH (current +:+ String c "")). by rewrite string_app_assoc.
Qed.

(** Reading a quoted word gives the word back. *)
Lemma read_words_quote (word rest : string) :
  read_words Unquoted None (shlex.quote word +:+ rest)
  = read_words Unquoted (Some word) rest.
Proof.
  unfold shlex.quote. destruct (String.eqb word "") eqn:Hempty.
  { apply String.eqb_eq in Hempty as ->. done. }
  destruct (shlex.find_unsafe word) eqn:Hunsafe; cbn [negb].
  - unfold shlex.squote. rewrite !string_app_assoc, string_app_cons.
    simpl.
    change ("" +:+ Py.replace "'" shlex.escaped_squote word +:+ "'" +:+ rest)
      with (Py.replace "'" shlex.escaped_squote word
            +:+ String "'" rest).
    rewrite read_words_single. done.
  - by rewrite (read_words_plain _ _ _ Hunsafe), Hempty.
Qed.

Lemma read_words_space (current : option string) (s : string) :
  read_words Unquoted current (String " " s)
  = finished current ++ read_words Unquoted None s.
Proof. reflexivity. Qed.

(** X15.  The command to rerun loses nothing of the invocation: read back
    word by word, it gives the arguments it was built from, whatever spaces
    and quotes they hold; so two different argument lists never give the
    same command. *)
Theorem shlex_join_read_back (words : list string) :
  read_words Unquoted None (shlex.join words) = words
  ∧ ∀ words', shlex.join words = shlex.join words' → words = words'.
Proof.
  assert (∀ l, read_words Unquoted None (shlex.join l) = l) as Hread.
  { intros l. unfold shlex.join.
    induction l as [| word l IH]; [done |].
    destruct l as [| word' l].
    - cbn [map Py.join]. rewrite <- (string_app_nil_r (shlex.quote word)).
      by rewrite read_words_quote.
    - change (Py.join " " (map shlex.quote (word :: word' :: l)))
        with (shlex.quote word
              +:+ String " " (Py.join " " (map shlex.quote (word' :: l)))).
      rewrite read_words_quote, read_words_space.
      cbn [finished app]. by rewrite IH. }
  split; [apply Hread |].
  intros words' Hsame. rewrite <- (Hread words), Hsame. apply Hread.
Qed.

(** ** The further properties at sample invocations *)

Lemma run_failure_propagates_witness :
  let failure := OtherError "RuntimeError" "no GPU" in
  let m := model_answering (Some failure) (inr JNull) in
  let w := world_of [] "prog" ["--only-gpu"; "X"] only_gpu_X m ("{}", None) in
  let cfg := resolved_config (namespace_of w only_gpu_X) "X" ∅ in
  run w cfg [] = ([LoadModel "X" cfg []; Model_run], Raised failure).
Proof.
  intros failure m w cfg.
  exact (proj1 (run_failure_propagates w cfg [] "X" m failure
                  eq_refl eq_refl eq_refl eq_refl eq_refl)).
Defined.

Lemma report_only_for_the_run_witness :
  let m := model_answering (Some (FileNotFoundError "weights.onnx")) (inr JNull) in
  let w := world_of [] "prog" ["--only-gpu"; "X"] only_gpu_X m ("{}", None) in
  let cfg := resolved_config (namespace_of w only_gpu_X) "X" ∅ in
  existsb is_log_event (run w cfg []).1 = true.
Proof.
  intros m w cfg.
  destruct (report_only_for_the_run w cfg [] "X" m eq_refl eq_refl)
    as [Hreport _].
  apply Hreport. split; [reflexivity |]. by exists "weights.onnx".
Defined.

Lemma finalise_after_successful_run_witness :
  let w := world_of [] "prog" ["--only-gpu"; "X"] only_gpu_X quiet_model
             ("{}", None) in
  let cfg := resolved_config (namespace_of w only_gpu_X) "X" ∅ in
  Model_finalise ∈ (run w cfg []).1.
Proof.
  intros w cfg.
  apply (finalise_after_successful_run w cfg [] "X" quiet_model
           eq_refl eq_refl).
  by split.
Defined.

Lemma provenance_dump_written_witness :
  let w := world_of [] "ai-models" ["--dump-provenance"; "p.json"; "X"]
             dump_to_p_json quiet_model ("{ }", None) in
  let cfg := resolved_config (namespace_of w dump_to_p_json) "X" ∅ in
  files_after (run w cfg []).1 {["p.json" := "old"; "q.json" := "kept"]}
  = {["p.json" := "{ }"; "q.json" := "kept"]}.
Proof.
  intros w cfg.
  assert ("p.json" ≠ "") as Hname by done.
  destruct (provenance_dump_written w cfg [] "X" quiet_model "p.json"
              (JDict []) "{ }" eq_refl eq_refl eq_refl eq_refl eq_refl
              eq_refl Hname eq_refl eq_refl eq_refl) as [_ Hfiles].
  rewrite Hfiles. apply insert_insert_eq.
Defined.

Lemma provenance_open_failure_witness :
  let failure := OtherError "PermissionError" "p.json" in
  let w := refusing_open failure
             (world_of [] "ai-models" ["--dump-provenance"; "p.json"; "X"]
                dump_to_p_json quiet_model ("{ }", None)) in
  let cfg := resolved_config (namespace_of w dump_to_p_json) "X" ∅ in
  (run w cfg []).2 = Raised failure
  ∧ files_after (run w cfg []).1 {["p.json" := "old"]} = {["p.json" := "old"]}.
Proof.
  intros failure w cfg.
  assert ("p.json" ≠ "") as Hname by done.
  destruct (provenance_open_failure w cfg [] "X" quiet_model "p.json" failure
              eq_refl eq_refl eq_refl eq_refl eq_refl eq_refl Hname eq_refl)
    as [Hrun Hfiles].
  split; [by rewrite Hrun | apply Hfiles].
Defined.

Lemma exit_statuses_witness :
  let m := model_answering (Some (FileNotFoundError "weights.onnx")) (inr JNull) in
  let w := world_of [] "prog" ["--only-gpu"; "X"] only_gpu_X m ("{}", None) in
  LogError "Rerun the command as:" ∈ (main w).1.
Proof.
  intros m w.
  destruct (proj1 (exit_statuses w) 1%Z eq_refl)
    as [Hzero | [[_ Hlogged] | [Htwo _]]]; [done | exact Hlogged | done].
Defined.

Lemma resolved_paths_witness :
  let c := with_assets_sub_directory model_X in
  let w := world_of [("AI_MODELS_ASSETS", "/data/assets")] "ai-models"
             ["--assets-sub-directory"; "X"] c quiet_model ("{}", None) in
  ∃ cfg,
    _main_resolve w (namespace_of w c) []
    = ([LoggingBasicConfig "INFO"], Returned tt) ≫= (λ _, run w cfg [])
    ∧ assets cfg = "/data/assets/X"
    ∧ path cfg = Some "X.grib"
    ∧ input cfg = "mars".
Proof.
  intros c w.
  destruct (resolved_paths w c [] eq_refl)
    as (name & cfg & Hname & Hrun & Hassets & Hpath & Hinput).
  injection Hname as <-. by exists cfg.
Defined.

Lemma no_model_name_no_load_witness :
  let w := world_of [] "ai-models" ["--path"; "out.grib"; "--"; "--models"]
             path_without_model quiet_model ("{}", None) in
  _main_resolve w (namespace_of w path_without_model) []
  = ([LoggingBasicConfig "INFO"], Raised (KeyError "model")).
Proof.
  intros w.
  assert (is_Some (Some "out.grib")) as Hpath by (by eexists).
  destruct (no_model_name_no_load w (namespace_of w path_without_model) []
              eq_refl eq_refl) as (_ & _ & _ & Hkey).
  exact (Hkey Hpath eq_refl eq_refl eq_refl eq_refl).
Defined.

Lemma model_receives_resolved_config_witness :
  let w := world_of [] "prog" ["--only-gpu"; "X"] only_gpu_X quiet_model
             ("{}", None) in
  let cfg := resolved_config (namespace_of w only_gpu_X) "X" ∅ in
  ∃ supplied d,
    parse_known_args w (declares_model ["--only-gpu"; "X"]) ["--only-gpu"; "X"]
    = Parsed supplied []
    ∧ model supplied = Some "X"
    ∧ dict (map (Py.split "=") (default [] (metadata supplied))) = inr d
    ∧ cfg = resolved_config (namespace_of w supplied) "X" d.
Proof.
  intros w cfg.
  apply (proj1 (model_receives_resolved_config w "X" cfg [])).
  vm_compute. do 3 apply list_elem_of_further. apply list_elem_of_here.
Defined.

Lemma metadata_last_token_wins_witness :
  let w := world_of [] "ai-models" [] metadata_twice quiet_model ("{}", None) in
  ∃ d,
    _main_metadata (namespace_of w metadata_twice) = ret d
    ∧ d !! "a" = Some "3"
    ∧ d !! "b" = Some "2"
    ∧ d !! "c" = None.
Proof.
  intros w.
  destruct (metadata_last_token_wins (namespace_of w metadata_twice) eq_refl)
    as (d & _ & Hmetadata & Hlast & Hnone).
  exists d. split_and!.
  - exact Hmetadata.
  - apply (Hlast ["a=1"; "b=2"] [] "a" "3"); [reflexivity | reflexivity |].
    constructor.
  - apply (Hlast ["a=1"] ["a=3"] "b" "2"); [reflexivity | reflexivity |].
    by repeat constructor.
  - apply Hnone. by repeat constructor.
Defined.


Lemma shlex_join_read_back_witness :
  read_words Unquoted None (shlex.join ["prog"; "--path"; "my file"; "it's"])
  = ["prog"; "--path"; "my file"; "it's"]
  ∧ ["a b"] = ["a b"].
Proof.
  split.
  - exact (proj1 (shlex_join_read_back ["prog"; "--path"; "my file"; "it's"])).
  - exact (proj2 (shlex_join_read_back ["a b"]) ["a b"] eq_refl).
Defined.
